(** * Variant-aware stock reconciliation and checkout protocol

    A shallow embedding of the order, cart and stock handlers of the
    store backend (routes over the Product, Order and Cart collections),
    and the properties of the stock ledger, the stock validators, the
    cart store and the payment state machine that hold of them.

    Conventions of the embedding.
    - A Mongo collection is a finite map from the document key to the
      document: products and orders by [_id], carts by their unique
      [user].  Ids are strings: the keys of a collection are the strings
      of the [_id]s it holds, and the product id of a request is any
      string, cast where Mongoose casts it ([castObjectId],
      [findById]).
    - A JavaScript [Number] that holds a count (stock, quantity) is an
      integer [Z]; nothing in the handlers bounds it from below, so
      negative values are representable, as they are in the database.
      A price is a rational [Q].  The total of an order, on which the
      handlers compute, is a binary64 floating-point number.
    - A handler is a function from the request and the current state to
      the next state, the HTTP response and the lines written to the
      console.  Every handler runs to completion before the next one
      starts; the [protect] and [admin] middlewares have already run and
      have put the authenticated user in [req.user].
    - The payment gateway and the HMAC are parameters of the
      development (record [Gateway]). *)

From Stdlib Require Import Ascii String ZArith QArith PrimFloat SpecFloat FloatOps.
From Stdlib Require Uint63.
From stdpp Require Import gmap strings list fin_maps.

Local Open Scope string_scope.
Local Open Scope Z_scope.
Local Open Scope list_scope.

(** ** Data model *)

(** models/Product: [variantSchema] and the part of [productSchema] the
    handlers read. *)
Record Variant := mkVariant {
  v_size : string;
  v_colorName : string;
  v_colorHex : string;
  v_stock : Z
}.

Record Product := mkProduct {
  p_name : string;
  p_variants : list Variant
}.

(** models/Order: [orderItemSchema]. *)
Record OrderItem := mkOrderItem {
  oi_name : string;
  oi_quantity : Z;
  oi_price : Q;
  oi_image : string;
  oi_size : string;
  oi_colorName : string;
  oi_product : string
}.

Record PaymentDetails := mkPaymentDetails {
  razorpayPaymentId : option string;
  razorpayOrderId : option string;
  razorpaySignature : option string;
  paymentMethod : option string
}.

(** models/Order: the [shippingAddress] of [orderSchema]. *)
Record ShippingAddress := mkShippingAddress {
  fullName : string;
  address : string;
  city : string;
  postalCode : string;
  country : string;
  phone : string
}.

(** models/Order: [orderSchema]. *)
Record Order := mkOrder {
  o_user : string;
  orderItems : list OrderItem;
  shippingAddress : ShippingAddress;
  paymentDetails : PaymentDetails;
  totalPrice : float;
  isPaid : bool;
  paidAt : option Z;
  isDelivered : bool;
  deliveredAt : option Z;
  isCancelled : bool
}.

(** models/Cart: [cartItemSchema]. *)
Record CartItem := mkCartItem {
  ci_product : string;
  ci_name : string;
  ci_price : Q;
  ci_image : string;
  ci_size : string;
  ci_colorName : string;
  ci_quantity : Z
}.

(** The three collections. *)
Record State := mkState {
  products : gmap string Product;
  orders : gmap string Order;
  carts : gmap string (list CartItem)
}.

(** [req.user] as the auth middleware leaves it. *)
Record User := mkUser {
  u_id : string;
  u_isAdmin : bool
}.

(** ** Variant lookup *)

(** [v => v.size === size && v.colorName === colorName] *)
Definition variant_matches (size colorName : string) (v : Variant) : bool :=
  String.eqb (v_size v) size && String.eqb (v_colorName v) colorName.

(** [product.variants.find(...)]: the first matching variant. *)
Definition find_variant (size colorName : string) (p : Product) : option Variant :=
  List.find (variant_matches size colorName) (p_variants p).

(** ** The ledger: [Product.bulkWrite] of [updateOne] operations *)

(** One [updateOne] of a batch: the filter
    [{_id, variants: {$elemMatch: {size, colorName}}}] and the update
    [{$inc: {"variants.$.stock": delta}}]. *)
Record UpdateOne := mkUpdateOne {
  f_id : string;
  f_size : string;
  f_colorName : string;
  inc_stock : Z
}.

(** The positional operator [$] designates the first array element that
    satisfies the [$elemMatch]; [None] when no element does. *)
Fixpoint inc_first (size colorName : string) (delta : Z) (vs : list Variant)
  : option (list Variant) :=
  match vs with
  | [] => None
  | v :: rest =>
      if variant_matches size colorName v
      then Some (mkVariant (v_size v) (v_colorName v) (v_colorHex v) (v_stock v + delta) :: rest)
      else option_map (cons v) (inc_first size colorName delta rest)
  end.

(** One operation against the collection: the new collection and the
    number of documents matched (0 or 1). *)
Definition updateOne (op : UpdateOne) (ps : gmap string Product) : gmap string Product * nat :=
  match ps !! f_id op with
  | None => (ps, 0%nat)
  | Some p =>
      match inc_first (f_size op) (f_colorName op) (inc_stock op) (p_variants p) with
      | None => (ps, 0%nat)
      | Some vs => (<[f_id op := mkProduct (p_name p) vs]> ps, 1%nat)
      end
  end.

(** [Product.bulkWrite(bulkOps)]: the operations in order, each on the
    result of the previous one; the result carries [matchedCount].  An
    operation that matches nothing does not stop the batch. *)
Definition bulkWrite (ops : list UpdateOne) (ps : gmap string Product)
  : gmap string Product * nat :=
  fold_left (fun acc op =>
               let '(ps', n) := updateOne op (fst acc) in (ps', (snd acc + n)%nat))
            ops (ps, 0%nat).

(** The stock the ledger holds for a variant key, if the variant exists. *)
Definition stockOf (ps : gmap string Product) (pid size colorName : string) : option Z :=
  match ps !! pid with
  | None => None
  | Some p => option_map v_stock (find_variant size colorName p)
  end.

(** ** Responses *)

(** A validated item: the input item and the four annotations.
    [isLowStock] is absent from some of the objects the handlers build. *)
Record Annotated (A : Type) := mkAnnotated {
  an_item : A;
  realStock : Z;
  hasSufficientStock : bool;
  isLowStock : option bool;
  isOutOfStock : bool
}.
Arguments mkAnnotated {A}.
Arguments an_item {A}.
Arguments realStock {A}.
Arguments hasSufficientStock {A}.
Arguments isLowStock {A}.
Arguments isOutOfStock {A}.

(** [{ id, quantity, size, colorName }] of /validate-cart. *)
Record Pick := mkPick {
  pk_id : string;
  pk_size : string;
  pk_colorName : string;
  pk_quantity : Z
}.

(** The item of /cart/add, /cart/merge and /cart/validate-guest. *)
Record GuestItem := mkGuestItem {
  g_productId : string;
  g_name : string;
  g_price : Q;
  g_image : string;
  g_size : string;
  g_colorName : string;
  g_quantity : Z
}.

(** The identifiers the gateway returns from [orders.create]. *)
Record GatewayOrder := mkGatewayOrder {
  go_id : string;
  go_amount : float;
  go_currency : string
}.

(** The JSON bodies the handlers send.  A message built from a template
    string is a constructor that carries the interpolated values. *)
Inductive Body :=
| Message (msg : string)
| ProductNotFound (name : string)
| VariantNotFound (name size colorName : string)
| VariantNotFoundFor (name : string)
| NotEnoughStock (name size colorName : string) (left : Z)
| CannotRepay (name size colorName : string)
| CannotAdd (newQuantity available : Z)
| CannotSet (newQuantity available : Z)
| OrderCreated (orderId : string) (g : GatewayOrder)
| RepayCreated (orderId : string) (g : GatewayOrder)
| PaymentVerified (orderId paymentId : string)
| OrderDoc (o : Order)
| CartItems (items : list CartItem)
| ValidatedCart (validatedItems : list (Annotated Pick)) (canCheckout : bool)
| ValidatedGuest (validatedItems : list (Annotated GuestItem)) (canCheckout : bool).

Record Response := mkResponse {
  status : Z;
  body : Body
}.

(** What a request leaves behind besides the state: the response and the
    console lines. *)
Record Reply := mkReply {
  response : Response;
  console : list string
}.

Definition send (st : Z) (b : Body) : Reply := mkReply (mkResponse st b) [].
Definition fail (st : Z) (b : Body) (line : string) : Reply := mkReply (mkResponse st b) [line].

(** ** Awaited calls *)

(** The outcome of an awaited call: it throws, resolves to a falsy
    value, or resolves to a value. *)
Inductive Awaited (A : Type) :=
| Throws
| Falsy
| Resolved (a : A).
Arguments Throws {A}.
Arguments Falsy {A}.
Arguments Resolved {A}.

(** ** ObjectIds *)

(** A hexadecimal digit, in either case. *)
Definition is_hex (c : ascii) : bool :=
  let n := Z.of_nat (nat_of_ascii c) in
  ((48 <=? n) && (n <=? 57)) || ((97 <=? n) && (n <=? 102)) || ((65 <=? n) && (n <=? 70)).

Definition hex_toLowerCase (c : ascii) : ascii :=
  let n := nat_of_ascii c in
  if (65 <=? Z.of_nat n) && (Z.of_nat n <=? 70) then ascii_of_nat (n + 32) else c.

Fixpoint all_hex (s : string) : bool :=
  match s with
  | EmptyString => true
  | String c rest => is_hex c && all_hex rest
  end.

Fixpoint toHexString (s : string) : string :=
  match s with
  | EmptyString => EmptyString
  | String c rest => String (hex_toLowerCase c) (toHexString rest)
  end.

(** The cast of a string to an ObjectId, as Mongoose applies it to a
    query on [_id] and to a path of type ObjectId: a string of 24
    hexadecimal digits is the ObjectId it spells, whose own string is in
    lower case; on any other string the cast fails (a [CastError]). *)
Definition castObjectId (s : string) : option string :=
  if (String.length s =? 24)%nat && all_hex s then Some (toHexString s) else None.

(** The ObjectId a string of a request denotes in a query on a
    collection.  The string of an [_id] the collection holds is that
    ObjectId, its own cast; any other string is cast. *)
Definition cast_id {A : Type} (docs : gmap string A) (id : string) : option string :=
  match docs !! id with
  | Some _ => Some id
  | None => castObjectId id
  end.

(** [Model.findById(id)] for a string of a request: it throws when the
    id does not cast, and resolves to [null] or to the document, given
    here with its [_id]. *)
Definition findById {A : Type} (docs : gmap string A) (id : string) : Awaited (string * A) :=
  match cast_id docs id with
  | None => Throws
  | Some oid =>
      match docs !! oid with
      | None => Falsy
      | Some doc => Resolved (oid, doc)
      end
  end.

(** [Model.findById(oid)] for the ObjectId a stored document holds:
    there is nothing to cast. *)
Definition findStored {A : Type} (docs : gmap string A) (oid : string) : Awaited (string * A) :=
  match docs !! oid with
  | None => Falsy
  | Some doc => Resolved (oid, doc)
  end.

(** ** The gateway *)

Record Gateway := mkGateway {
  key_secret : string;
  (** [createHmac('sha256', key).update(msg).digest('hex')] *)
  hmac_sha256_hex : string -> string -> string;
  (** [razorpay.payments.fetch(id)], resolving to the payment method *)
  payments_fetch : string -> Awaited (option string);
  (** [razorpay.orders.create({amount, currency, receipt})]; the receipt
      is derived from the clock *)
  orders_create : float -> Z -> Awaited GatewayOrder
}.

(** [Math.round(x)]: the integer nearest to [x], the greater one of two
    that are as near; an integer, a zero, an infinity and NaN are
    returned as they are, and a negative [x] that rounds to zero gives
    the negative zero. *)
Definition Math_round (x : float) : float :=
  match Prim2SF x with
  | S754_finite s m e =>
      if 0 <=? e then x
      else
        (* [x] is [z / 2 ^ (- e)], below [2 ^ 53] in absolute value *)
        let z := if s then Z.neg m else Z.pos m in
        let n := (2 * z + 2 ^ (- e)) / 2 ^ (1 - e) in
        if n =? 0 then (if s then neg_zero else zero)
        else if n <? 0 then opp (of_uint63 (Uint63.of_Z (- n)))
        else of_uint63 (Uint63.of_Z n)
  | _ => x
  end.

(** [Math.round(x * 100)] *)
Definition minor_units (x : float) : float := Math_round (x * 100)%float.

(** ** State updates *)

Definition set_products (ps : gmap string Product) (s : State) : State :=
  mkState ps (orders s) (carts s).

Definition save_order (id : string) (o : Order) (s : State) : State :=
  mkState (products s) (<[id := o]> (orders s)) (carts s).

Definition delete_order (id : string) (s : State) : State :=
  mkState (products s) (delete id (orders s)) (carts s).

Definition save_cart (user : string) (items : list CartItem) (s : State) : State :=
  mkState (products s) (orders s) (<[user := items]> (carts s)).

(** ** Order routes *)

(** How the stock check loop of Create and Repay ends: every item
    passed, an item was refused with a response, or a lookup threw. *)
Inductive Checked :=
| Passed
| Refused (r : Reply)
| Threw.

(** The stock check loop shared by Create and Repay: the first item that
    fails decides the outcome.  The two routes word the last two
    messages differently, and differ in what [item.product] is: a string
    of the request in Create, the ObjectId of a stored order in Repay;
    [find] is [Product.findById] on the one or the other. *)
Fixpoint stock_check (find : string -> Awaited (string * Product))
    (variant_missing : OrderItem -> Body) (short : OrderItem -> Z -> Body)
    (items : list OrderItem) : Checked :=
  match items with
  | [] => Passed
  | item :: rest =>
      match find (oi_product item) with
      | Throws => Threw
      | Falsy => Refused (send 404 (ProductNotFound (oi_name item)))
      | Resolved (_, product) =>
          match find_variant (oi_size item) (oi_colorName item) product with
          | None => Refused (send 404 (variant_missing item))
          | Some variant =>
              if v_stock variant <? oi_quantity item
              then Refused (send 400 (short item (v_stock variant)))
              else stock_check find variant_missing short rest
          end
      end
  end.

(** The decrement of Verify and the restock of Delete, per order item. *)
Definition stock_op (sign : Z) (item : OrderItem) : UpdateOne :=
  mkUpdateOne (oi_product item) (oi_size item) (oi_colorName item) (sign * oi_quantity item).

(** Request bodies. *)
Record CreateBody := mkCreateBody {
  cb_orderItems : list OrderItem;
  cb_shippingAddress : ShippingAddress;
  cb_totalPrice : float
}.

Record VerifyBody := mkVerifyBody {
  razorpay_order_id : string;
  razorpay_payment_id : string;
  razorpay_signature : string;
  order_id : string
}.

(** [new Order({..., orderItems, ...})] casts the [product] of every item
    to the ObjectId the schema asks for; an item whose [product] does
    not cast makes the document invalid. *)
Definition cast_item (ps : gmap string Product) (item : OrderItem) : option OrderItem :=
  match cast_id ps (oi_product item) with
  | None => None
  | Some oid =>
      Some (mkOrderItem (oi_name item) (oi_quantity item) (oi_price item) (oi_image item)
                        (oi_size item) (oi_colorName item) oid)
  end.

(** What [required: true] accepts of a path of type String. *)
Definition required (s : string) : bool := negb (String.eqb s "").

(** What [newOrder.save()] validates of the document Create builds
    ([orderItemSchema], and the [shippingAddress] of [orderSchema]); the
    numbers are there, and the other paths are set by the route. *)
Definition orderItem_valid (item : OrderItem) : bool :=
  required (oi_name item) && required (oi_image item)
  && required (oi_size item) && required (oi_colorName item).

Definition shippingAddress_valid (a : ShippingAddress) : bool :=
  required (fullName a) && required (address a) && required (city a)
  && required (postalCode a) && required (country a) && required (phone a).

Definition order_valid (o : Order) : bool :=
  forallb orderItem_valid (orderItems o) && shippingAddress_valid (shippingAddress o).

(** The order as Verify saves it. *)
Definition paid_order (now : Z) (method : option string) (b : VerifyBody) (order : Order) : Order :=
  mkOrder (o_user order) (orderItems order) (shippingAddress order)
          (mkPaymentDetails (Some (razorpay_payment_id b)) (Some (razorpay_order_id b))
                            (Some (razorpay_signature b)) method)
          (totalPrice order) true (Some now)
          (isDelivered order) (deliveredAt order) (isCancelled order).

(** The order as Cancel saves it. *)
Definition cancelled_order (order : Order) : Order :=
  mkOrder (o_user order) (orderItems order) (shippingAddress order)
          (paymentDetails order) (totalPrice order) (isPaid order) (paidAt order)
          (isDelivered order) (deliveredAt order) true.

Section OrderRoutes.

Context (gw : Gateway).

(** POST /api/orders.  [now] is the clock reading and [newId] the
    [_id] Mongoose gives the new document.  An exception, of a lookup,
    of the gateway or of [newOrder.save()], is caught by the route. *)
Definition create_order (caller : User) (now : Z) (newId : string) (b : CreateBody) (s : State)
  : State * Reply :=
  match stock_check (findById (products s))
          (fun item => VariantNotFound (oi_name item) (oi_size item) (oi_colorName item))
          (fun item left => NotEnoughStock (oi_name item) (oi_size item) (oi_colorName item) left)
          (cb_orderItems b) with
  | Threw => (s, fail 500 (Message "Server error") "Error creating order:")
  | Refused r => (s, r)
  | Passed =>
      match orders_create gw (minor_units (cb_totalPrice b)) now with
      | Throws => (s, fail 500 (Message "Server error") "Error creating order:")
      | Falsy => (s, send 500 (Message "Razorpay order creation failed"))
      | Resolved razorpayOrder =>
          match mapM (cast_item (products s)) (cb_orderItems b) with
          | None => (s, fail 500 (Message "Server error") "Error creating order:")
          | Some orderItems =>
              let newOrder :=
                mkOrder (u_id caller) orderItems (cb_shippingAddress b)
                        (mkPaymentDetails None (Some (go_id razorpayOrder)) None None)
                        (cb_totalPrice b) false None false None false in
              if order_valid newOrder
              then (save_order newId newOrder s, send 201 (OrderCreated newId razorpayOrder))
              else (s, fail 500 (Message "Server error") "Error creating order:")
          end
      end
  end.

(** The signature Verify expects. *)
Definition expectedSignature (b : VerifyBody) : string :=
  hmac_sha256_hex gw (key_secret gw) (razorpay_order_id b +:+ "|" +:+ razorpay_payment_id b).

(** POST /api/orders/verify.  The handler never reads [req.user].  The
    filter of each decrement names the product, the size and the colour
    name only; the stock is not part of it. *)
Definition verify (caller : User) (now : Z) (b : VerifyBody) (s : State) : State * Reply :=
  match orders s !! order_id b with
  | None => (s, send 404 (Message "Order not found"))
  | Some order =>
      if isPaid order then (s, send 200 (Message "Payment already verified"))
      else if negb (String.eqb (expectedSignature b) (razorpay_signature b))
      then (s, send 400 (Message "Payment verification failed: Invalid signature"))
      else
        match payments_fetch gw (razorpay_payment_id b) with
        | Throws => (s, fail 500 (Message "Server error") "Error verifying payment:")
        | Falsy => (s, send 500 (Message "Error fetching payment details from Razorpay"))
        | Resolved method =>
            let bulkOps := map (stock_op (-1)) (orderItems order) in
            (* the result of [bulkWrite] is dropped *)
            let ps := fst (bulkWrite bulkOps (products s)) in
            let order' := paid_order now method b order in
            (save_order (order_id b) order' (set_products ps s),
             send 200 (PaymentVerified (order_id b) (razorpay_payment_id b)))
        end
  end.

(** POST /api/orders/:id/repay.  The items are those of the stored
    order: their [product] is an ObjectId. *)
Definition repay (caller : User) (now : Z) (id : string) (s : State) : State * Reply :=
  match orders s !! id with
  | None => (s, send 404 (Message "Order not found"))
  | Some order =>
      if negb (String.eqb (o_user order) (u_id caller))
      then (s, send 401 (Message "Not authorized"))
      else if isPaid order then (s, send 400 (Message "Order is already paid"))
      else if isCancelled order then (s, send 400 (Message "This order has been cancelled"))
      else
        match stock_check (findStored (products s))
                (fun item => VariantNotFoundFor (oi_name item))
                (fun item _ => CannotRepay (oi_name item) (oi_size item) (oi_colorName item))
                (orderItems order) with
        | Threw => (s, fail 500 (Message "Server error") "Error creating repay order:")
        | Refused r => (s, r)
        | Passed =>
            match orders_create gw (minor_units (totalPrice order)) now with
            | Throws => (s, fail 500 (Message "Server error") "Error creating repay order:")
            | Falsy => (s, send 500 (Message "Razorpay order creation failed"))
            | Resolved razorpayOrder =>
                let pd := paymentDetails order in
                let order' :=
                  mkOrder (o_user order) (orderItems order) (shippingAddress order)
                          (mkPaymentDetails (razorpayPaymentId pd)
                                            (Some (go_id razorpayOrder))
                                            (razorpaySignature pd)
                                            (paymentMethod pd))
                          (totalPrice order) (isPaid order) (paidAt order)
                          (isDelivered order) (deliveredAt order) (isCancelled order) in
                (save_order id order' s, send 200 (RepayCreated id razorpayOrder))
            end
        end
  end.

End OrderRoutes.

(** PUT /api/orders/:id/cancel *)
Definition cancel (caller : User) (id : string) (s : State) : State * Reply :=
  match orders s !! id with
  | None => (s, send 404 (Message "Order not found"))
  | Some order =>
      if negb (String.eqb (o_user order) (u_id caller))
      then (s, send 401 (Message "Not authorized"))
      else if isPaid order then (s, send 400 (Message "Cannot cancel a paid order"))
      else
        let updatedOrder := cancelled_order order in
        (save_order id updatedOrder s, send 200 (OrderDoc updatedOrder))
  end.

(** DELETE /api/orders/:id (behind [admin]) *)
Definition order_delete (caller : User) (id : string) (s : State) : State * Reply :=
  match orders s !! id with
  | None => (s, send 404 (Message "Order not found"))
  | Some order =>
      if isPaid order && negb (isCancelled order)
      then
        let bulkOps := map (stock_op 1) (orderItems order) in
        let ps := fst (bulkWrite bulkOps (products s)) in
        (delete_order id (set_products ps s),
         mkReply (mkResponse 200 (Message "Order permanently deleted"))
                 ["Restocking variants for deleted paid order..."])
      else (delete_order id s, send 200 (Message "Order permanently deleted"))
  end.

(** ** Cart routes *)

(** [!s] on a string, and [!x] on a price. *)
Definition missing (s : string) : bool := String.eqb s "".
Definition no_price (x : Q) : bool := Qeq_bool x 0.

(** [arr.findIndex(f)], with the element found; [None] for [-1]. *)
Fixpoint findIndex {A : Type} (f : A -> bool) (l : list A) : option (nat * A) :=
  match l with
  | [] => None
  | x :: rest =>
      if f x then Some (0%nat, x)
      else match findIndex f rest with
           | Some (i, y) => Some (S i, y)
           | None => None
           end
  end.

(** [item.product.toString() === product && item.size === size &&
    item.colorName === colorName] *)
Definition same_line (productId size colorName : string) (item : CartItem) : bool :=
  String.eqb (ci_product item) productId
  && String.eqb (ci_size item) size
  && String.eqb (ci_colorName item) colorName.

(** [item.quantity = q] *)
Definition with_quantity (q : Z) (item : CartItem) : CartItem :=
  mkCartItem (ci_product item) (ci_name item) (ci_price item) (ci_image item)
             (ci_size item) (ci_colorName item) q.

(** What [cart.save()] validates of every line ([cartItemSchema]): the
    required strings are not empty and [quantity] is at least [1]. *)
Definition cartItem_valid (item : CartItem) : bool :=
  negb (missing (ci_name item)) && negb (missing (ci_image item))
  && negb (missing (ci_size item)) && negb (missing (ci_colorName item))
  && (1 <=? ci_quantity item).

Definition cart_valid (items : list CartItem) : bool := forallb cartItem_valid items.

(** [cart.save()] followed by [res.status(200).json(cart.items)]; a
    validation error is caught by the route and answered with a 500. *)
Definition save_and_send (line : string) (user : string) (items : list CartItem) (s : State)
  : State * Reply :=
  if cart_valid items
  then (save_cart user items s, send 200 (CartItems items))
  else (s, fail 500 (Message "Server Error") line).

(** [Cart.findOne({user})], a new empty cart when there is none. *)
Definition cart_of (user : string) (s : State) : list CartItem :=
  default [] (carts s !! user).

Definition line_of (b : GuestItem) (q : Z) : CartItem :=
  mkCartItem (g_productId b) (g_name b) (g_price b) (g_image b) (g_size b) (g_colorName b) q.

(** The line the cart routes push for an item: its [product], a path of
    type ObjectId, holds the cast of the id of the request. *)
Definition stored_line (oid : string) (b : GuestItem) (q : Z) : CartItem :=
  mkCartItem oid (g_name b) (g_price b) (g_image b) (g_size b) (g_colorName b) q.

(** POST /api/cart/add.  The product is looked up by the cast of
    [productId]; the lines of the cart are compared with [productId] as
    text. *)
Definition cart_add (caller : User) (b : GuestItem) (s : State) : State * Reply :=
  if missing (g_productId b) || missing (g_size b) || missing (g_colorName b)
     || (g_quantity b =? 0) || missing (g_name b) || no_price (g_price b)
     || missing (g_image b)
  then (s, send 400 (Message "Missing required item properties."))
  else
    match findById (products s) (g_productId b) with
    | Throws => (s, fail 500 (Message "Server Error") "Error adding to cart:")
    | Falsy => (s, send 404 (Message "Product not found."))
    | Resolved (oid, product) =>
        match find_variant (g_size b) (g_colorName b) product with
        | None => (s, send 404 (Message "Selected variant not found."))
        | Some variant =>
            let items := cart_of (u_id caller) s in
            let existingItemIndex :=
              findIndex (same_line (g_productId b) (g_size b) (g_colorName b)) items in
            let newQuantity :=
              match existingItemIndex with
              | Some (_, existing) => ci_quantity existing + g_quantity b
              | None => g_quantity b
              end in
            if newQuantity >? v_stock variant
            then (s, send 400 (CannotAdd newQuantity (v_stock variant)))
            else
              let items' :=
                match existingItemIndex with
                | Some (i, _) => alter (with_quantity newQuantity) i items
                | None => items ++ [stored_line oid b newQuantity]
                end in
              save_and_send "Error adding to cart:" (u_id caller) items' s
        end
    end.

Record UpdateBody := mkUpdateBody {
  ub_product : string;
  ub_size : string;
  ub_colorName : string;
  ub_newQuantity : Z
}.

(** PUT /api/cart/update *)
Definition cart_update (caller : User) (b : UpdateBody) (s : State) : State * Reply :=
  if missing (ub_product b) || missing (ub_size b) || missing (ub_colorName b)
  then (s, send 400 (Message "Missing item identifiers."))
  else if ub_newQuantity b <? 1
  then (s, send 400 (Message "Quantity must be at least 1."))
  else
    match products s !! ub_product b with
    | None => (s, send 404 (Message "Product not found."))
    | Some productDoc =>
        match find_variant (ub_size b) (ub_colorName b) productDoc with
        | None => (s, send 404 (Message "Variant not found."))
        | Some variant =>
            if ub_newQuantity b >? v_stock variant
            then (s, send 400 (CannotSet (ub_newQuantity b) (v_stock variant)))
            else
              match carts s !! u_id caller with
              | None => (s, send 404 (Message "Cart not found."))
              | Some items =>
                  match findIndex (same_line (ub_product b) (ub_size b) (ub_colorName b)) items with
                  | Some (itemIndex, _) =>
                      save_and_send "Error updating cart:" (u_id caller)
                        (alter (with_quantity (ub_newQuantity b)) itemIndex items) s
                  | None => (s, send 404 (Message "Item not found in cart."))
                  end
              end
        end
    end.

(** DELETE /api/cart/remove *)
Definition cart_remove (caller : User) (product size colorName : string) (s : State)
  : State * Reply :=
  if missing product || missing size || missing colorName
  then (s, send 400 (Message "Missing item identifiers."))
  else
    match carts s !! u_id caller with
    | None => (s, send 404 (Message "Cart not found."))
    | Some items =>
        let items' := List.filter (fun item => negb (same_line product size colorName item)) items in
        if (length items' =? length items)%nat
        then (s, send 404 (Message "Item not found in cart."))
        else save_and_send "Error removing from cart:" (u_id caller) items' s
    end.

(** DELETE /api/cart/clear *)
Definition cart_clear (caller : User) (s : State) : State * Reply :=
  match carts s !! u_id caller with
  | None => (s, send 200 (Message "Cart cleared successfully."))
  | Some _ => (save_cart (u_id caller) [] s, send 200 (Message "Cart cleared successfully."))
  end.

(** The key of /cart/merge and /validate-cart:
    [`${product}-${size}-${colorName}`]. *)
Definition itemKey (product size colorName : string) : string :=
  product +:+ "-" +:+ size +:+ "-" +:+ colorName.

Definition lineKey (item : CartItem) : string :=
  itemKey (ci_product item) (ci_size item) (ci_colorName item).

(** One turn of the loop of /cart/merge over the guest items;
    [existingItems] is the set built before the loop.  [None] is the
    exception of a lookup, which ends the loop. *)
Definition merge_step (ps : gmap string Product) (existingItems : gset string)
    (items : list CartItem) (guestItem : GuestItem) : option (list CartItem) :=
  if missing (g_productId guestItem) || missing (g_size guestItem)
     || missing (g_colorName guestItem)
  then Some items
  else
    match findById ps (g_productId guestItem) with
    | Throws => None
    | Falsy => Some items
    | Resolved (oid, product) =>
        match find_variant (g_size guestItem) (g_colorName guestItem) product with
        | None => Some items
        | Some variant =>
            if v_stock variant =? 0 then Some items
            else
              let key := itemKey (g_productId guestItem) (g_size guestItem)
                                 (g_colorName guestItem) in
              if bool_decide (key ∈ existingItems)
              then
                match findIndex (fun item => String.eqb (lineKey item) key) items with
                | None => Some items
                | Some (itemIndex, existing) =>
                    let newQuantity := ci_quantity existing + g_quantity guestItem in
                    let newQuantity :=
                      if newQuantity >? v_stock variant then v_stock variant else newQuantity in
                    Some (alter (with_quantity newQuantity) itemIndex items)
                end
              else
                let newQuantity := g_quantity guestItem in
                let newQuantity :=
                  if newQuantity >? v_stock variant then v_stock variant else newQuantity in
                Some (items ++ [stored_line oid guestItem newQuantity])
        end
    end.

(** A turn on the lines the turns before it have left, unless one of
    them threw. *)
Definition merge_turn (ps : gmap string Product) (existingItems : gset string)
    (acc : option (list CartItem)) (guestItem : GuestItem) : option (list CartItem) :=
  match acc with
  | None => None
  | Some items => merge_step ps existingItems items guestItem
  end.

(** The lines of the cart after the loop, when no turn threw. *)
Definition merge_items (ps : gmap string Product) (items : list CartItem)
    (guestCart : list GuestItem) : option (list CartItem) :=
  let existingItems : gset string := list_to_set (map lineKey items) in
  fold_left (merge_turn ps existingItems) guestCart (Some items).

(** POST /api/cart/merge; [None] is a body whose [guestCart] is missing
    or not an array.  One [try] holds the loop and [cart.save()]. *)
Definition cart_merge (caller : User) (guestCart : option (list GuestItem)) (s : State)
  : State * Reply :=
  match guestCart with
  | None => (s, send 400 (Message "Invalid guest cart data."))
  | Some guestCart =>
      match merge_items (products s) (cart_of (u_id caller) s) guestCart with
      | None => (s, fail 500 (Message "Server Error") "Error merging cart:")
      | Some items => save_and_send "Error merging cart:" (u_id caller) items s
      end
  end.

(** ** Stock validators *)

(** [[...new Set(items.map(item => item.id))]]: the distinct ids, in the
    order of their first occurrence. *)
Fixpoint distinct (ids : list string) : list string :=
  match ids with
  | [] => []
  | id :: rest => id :: List.filter (fun id' => negb (String.eqb id' id)) (distinct rest)
  end.

(** The documents of the collection whose [_id] is among the ObjectIds,
    each once, listed here in the order of the ids. *)
Definition find_in (productIds : list string) (ps : gmap string Product)
  : list (string * Product) :=
  omap (fun id => option_map (pair id) (ps !! id)) productIds.

(** [Product.find({_id: {$in: productIds}})]: every id is cast, and the
    query throws when one does not cast. *)
Definition find_by_ids (productIds : list string) (ps : gmap string Product)
  : option (list (string * Product)) :=
  match mapM (cast_id ps) productIds with
  | None => None
  | Some oids => Some (find_in (distinct oids) ps)
  end.

(** The [stockMap] of /validate-cart: a later [set] of the same key
    replaces the earlier one. *)
Definition stockMap_add (id : string) (m : gmap string Z) (v : Variant) : gmap string Z :=
  <[itemKey id (v_size v) (v_colorName v) := v_stock v]> m.

Definition stockMap_of (productsFromDB : list (string * Product)) : gmap string Z :=
  fold_left (fun m '(id, p) => fold_left (stockMap_add id) (p_variants p) m)
            productsFromDB ∅.

(** The object /validate-cart returns for one cart item. *)
Definition validate_pick (stockMap : gmap string Z) (cartItem : Pick) : Annotated Pick :=
  let key := itemKey (pk_id cartItem) (pk_size cartItem) (pk_colorName cartItem) in
  (* [stockMap.get(key) || 0] *)
  let realStock := default 0 (stockMap !! key) in
  let hasSufficientStock := realStock >=? pk_quantity cartItem in
  mkAnnotated cartItem realStock hasSufficientStock
              (Some ((0 <? realStock) && (realStock <=? 3)))
              (realStock =? 0).

(** The two assignments to [canCheckout] in the callback of
    /validate-cart. *)
Definition checkout_after (canCheckout : bool) (a : Annotated Pick) : bool :=
  let canCheckout := if realStock a =? 0 then false else canCheckout in
  if (0 <? realStock a) && negb (hasSufficientStock a) then false else canCheckout.

(** POST /api/orders/validate-cart; [None] is a body whose [items] is not
    an array.  The exception of the query is caught by the route. *)
Definition validate_cart (items : option (list Pick)) (s : State) : Reply :=
  match items with
  | None => send 400 (Message "Invalid request: items must be an array.")
  | Some items =>
      let productIds := distinct (map pk_id items) in
      match find_by_ids productIds (products s) with
      | None => fail 500 (Message "Server error") "Error validating stock:"
      | Some productsFromDB =>
          let stockMap := stockMap_of productsFromDB in
          let validatedItems := map (validate_pick stockMap) items in
          let canCheckout := fold_left checkout_after validatedItems true in
          send 200 (ValidatedCart validatedItems canCheckout)
      end
  end.

(** The object the cart routes return for an item that cannot be
    bought. *)
Definition out_of_stock {A : Type} (item : A) : Annotated A :=
  mkAnnotated item 0 false None true.

(** The callback of /cart/validate-guest for one item: whether it leaves
    [canCheckout] alone ([false]: it assigns [false]), the object it
    returns and what it writes to the console. *)
Definition validate_guest_item (ps : gmap string Product) (item : GuestItem)
  : bool * Annotated GuestItem * list string :=
  if missing (g_productId item) || missing (g_size item) || missing (g_colorName item)
  then (false, out_of_stock item, ["Error validating guest item"])
  else
    match ps !! g_productId item with
    | None => (false, out_of_stock item, [])
    | Some product =>
        match find_variant (g_size item) (g_colorName item) product with
        | None => (false, out_of_stock item, [])
        | Some variant =>
            if v_stock variant =? 0 then (false, out_of_stock item, [])
            else if v_stock variant <? g_quantity item
            then (false,
                  mkAnnotated item (v_stock variant) false (Some (v_stock variant <=? 3)) false,
                  [])
            else (true,
                  mkAnnotated item (v_stock variant) true (Some (v_stock variant <=? 3)) false,
                  [])
        end
    end.

(** POST /api/cart/validate-guest *)
Definition validate_guest (guestCart : option (list GuestItem)) (s : State) : Reply :=
  match guestCart with
  | None => send 400 (Message "Invalid guest cart data.")
  | Some guestCart =>
      let results := map (validate_guest_item (products s)) guestCart in
      let canCheckout := fold_left (fun (c : bool) '(ok, _, _) => if ok : bool then c else false) results true in
      mkReply (mkResponse 200 (ValidatedGuest (map (fun '(_, a, _) => a) results) canCheckout))
              (concat (map (fun '(_, _, lines) => lines) results))
  end.

(** ** A running example *)

Module Example.

Definition P : string := "64b7f0c2a1d3e4f5a6b7c8d9".
Definition alice : User := mkUser "u-alice" false.
Definition bob : User := mkUser "u-bob" false.
Definition root : User := mkUser "u-root" true.

Definition shirt (n : Z) : Product :=
  mkProduct "Shirt" [mkVariant "M" "Black" "#000000" n; mkVariant "L" "Black" "#000000" 7].

Definition shop (n : Z) : State := mkState (<[P := shirt n]> ∅) ∅ ∅.

Definition home : ShippingAddress :=
  mkShippingAddress "Alice" "12 Main Road" "Pune" "411001" "India" "9800000000".

Definition item (q : Z) : OrderItem := mkOrderItem "Shirt" q (499 # 1) "shirt.png" "M" "Black" P.

Definition guest (q : Z) : GuestItem := mkGuestItem P "Shirt" (499 # 1) "shirt.png" "M" "Black" q.

(** A gateway whose signature of a message is the message itself
    prefixed by the key, and which accepts every call. *)
Definition gw : Gateway :=
  mkGateway "k" (fun key msg => key +:+ ":" +:+ msg)
            (fun _ => Resolved (Some "upi"))
            (fun amount _ => Resolved (mkGatewayOrder "order_1" amount "INR")).

Definition pay (oid : string) : VerifyBody := mkVerifyBody "order_1" "pay_1" "k:order_1|pay_1" oid.

Definition checkout (q : Z) : CreateBody := mkCreateBody [item q] home 998.

(** Two checkouts of two units each against a stock of three, both
    created before either is paid, then both verified. *)
Definition two_orders : State :=
  fst (create_order gw bob 2 "o2" (checkout 2)
         (fst (create_order gw alice 1 "o1" (checkout 2) (shop 3)))).

Definition one_paid : State := fst (verify gw alice 3 (pay "o1") two_orders).

Definition oversold : State := fst (verify gw bob 4 (pay "o2") one_paid).

Definition pick (q : Z) : Pick := mkPick P "M" "Black" q.

(** The id of a product that was deleted. *)
Definition gone : string := "64b7f0c2a1d3e4f5a6b7c8d0".

(** The id of the shirt, spelled in upper case. *)
Definition P_upper : string := "64B7F0C2A1D3E4F5A6B7C8D9".

(** A guest item whose product id is no ObjectId. *)
Definition stray (q : Z) : GuestItem := mkGuestItem "zzz" "Cap" (99 # 1) "cap.png" "M" "Black" q.

End Example.

Module Renamed.

(** The shop after the administrator has renamed size "M" to "Medium":
    the order "o1", created before, still names "M". *)
Definition renamed : Product :=
  mkProduct "Shirt" [mkVariant "Medium" "Black" "#000000" 3; mkVariant "L" "Black" "#000000" 7].

Definition before : State :=
  fst (create_order Example.gw Example.alice 1 "o1" (Example.checkout 2) (Example.shop 3)).

Definition after : State := set_products (<[Example.P := renamed]> (products before)) before.

Definition ops : list UpdateOne := map (stock_op (-1)) [Example.item 2].

End Renamed.

(** ** Vocabulary of the properties *)

(** Whether an operation designates the variant key. *)
Definition targets (pid size colorName : string) (op : UpdateOne) : bool :=
  String.eqb (f_id op) pid && String.eqb (f_size op) size
  && String.eqb (f_colorName op) colorName.

(** The sum of the increments a batch addresses to a variant key. *)
Definition total_inc (pid size colorName : string) (ops : list UpdateOne) : Z :=
  fold_right (fun op acc => if targets pid size colorName op then inc_stock op + acc else acc)
             0 ops.

(** Whether an order item is of the variant key. *)
Definition item_of (pid size colorName : string) (item : OrderItem) : bool :=
  String.eqb (oi_product item) pid && String.eqb (oi_size item) size
  && String.eqb (oi_colorName item) colorName.

(** The quantity an order holds of a variant key: the sum over its items
    of that key. *)
Definition ordered_quantity (pid size colorName : string) (items : list OrderItem) : Z :=
  fold_right (fun item acc => if item_of pid size colorName item then oi_quantity item + acc else acc)
             0 items.


(** [canCheckout] as the specification words it. *)
Definition all_sufficient {A : Type} (anns : list (Annotated A)) : bool :=
  forallb hasSufficientStock anns.



(** The key joins its three parts with ["-"]; it identifies the parts
    when neither the id nor the size contains the separator. *)
Fixpoint no_dash (s : string) : bool :=
  match s with
  | EmptyString => true
  | String c rest => negb (Ascii.eqb c "-"%char) && no_dash rest
  end.

Definition plain_keys (ps : gmap string Product) : Prop :=
  map_Forall (fun id p => no_dash id = true
                          /\ Forall (fun v => no_dash (v_size v) = true) (p_variants p)) ps.

(** The check on the body of /cart/add passes. *)
Definition complete (b : GuestItem) : bool :=
  negb (missing (g_productId b) || missing (g_size b) || missing (g_colorName b)
        || (g_quantity b =? 0) || missing (g_name b) || no_price (g_price b)
        || missing (g_image b)).

(** The number of lines a cart holds of a variant key. *)
Definition lines_of (pid size colorName : string) (items : list CartItem) : nat :=
  length (List.filter (same_line pid size colorName) items).

(** The item of a request with another quantity. *)
Definition with_g_quantity (q : Z) (b : GuestItem) : GuestItem :=
  mkGuestItem (g_productId b) (g_name b) (g_price b) (g_image b) (g_size b) (g_colorName b) q.

(** The quantity /cart/add compares with the stock. *)
Definition merged_quantity (items : list CartItem) (b : GuestItem) : Z :=
  match findIndex (same_line (g_productId b) (g_size b) (g_colorName b)) items with
  | Some (_, existing) => ci_quantity existing + g_quantity b
  | None => g_quantity b
  end.

(** Every persisted cart is one that [cart.save()] accepts. *)
Definition carts_valid (s : State) : Prop :=
  forall user items, carts s !! user = Some items -> cart_valid items = true.

(** Neither the product id nor the size of a line or of a guest item
    contains the separator of the key. *)
Definition plain_line (item : CartItem) : Prop :=
  no_dash (ci_product item) = true /\ no_dash (ci_size item) = true.

Definition plain_guest (g : GuestItem) : Prop :=
  no_dash (g_productId g) = true /\ no_dash (g_size g) = true.

(** The identifiers of a guest item are all there. *)
Definition identified (g : GuestItem) : bool :=
  negb (missing (g_productId g) || missing (g_size g) || missing (g_colorName g)).

(** ** The routes the rest of the files hold *)

(** The order as Deliver saves it. *)
Definition delivered_order (now : Z) (order : Order) : Order :=
  mkOrder (o_user order) (orderItems order) (shippingAddress order)
          (paymentDetails order) (totalPrice order) (isPaid order) (paidAt order)
          true (Some now) (isCancelled order).

(** PUT /api/orders/:id/deliver (behind [admin]) *)
Definition deliver (caller : User) (now : Z) (id : string) (s : State) : State * Reply :=
  match orders s !! id with
  | None => (s, send 404 (Message "Order not found"))
  | Some order =>
      let updatedOrder := delivered_order now order in
      (save_order id updatedOrder s, send 200 (OrderDoc updatedOrder))
  end.

(** What GET /api/cart sends: [{items: [], subtotal: 0, total: 0}] when
    the user has no cart, [{items, subtotal, canCheckout}] otherwise. *)
Inductive CartView :=
| NoCart
| CartChecked (items : list (Annotated CartItem)) (subtotal : Q) (canCheckout : bool).

(** The callback of GET /api/cart for one line: whether the line is
    good (it then adds to [subtotal]; otherwise the callback assigns
    [false] to [canCheckout]) and the object it returns. *)
Definition cart_get_item (ps : gmap string Product) (item : CartItem)
  : bool * Annotated CartItem :=
  match ps !! ci_product item with
  | None => (false, out_of_stock item)
  | Some product =>
      match find_variant (ci_size item) (ci_colorName item) product with
      | None => (false, out_of_stock item)
      | Some variant =>
          if v_stock variant =? 0 then (false, out_of_stock item)
          else if v_stock variant <? ci_quantity item
          then (false,
                mkAnnotated item (v_stock variant) false (Some (v_stock variant <=? 3)) false)
          else (true,
                mkAnnotated item (v_stock variant) true (Some (v_stock variant <=? 3)) false)
      end
  end.

(** GET /api/cart; the lines are taken in the order of the cart. *)
Definition cart_get (caller : User) (s : State) : CartView :=
  match carts s !! u_id caller with
  | None => NoCart
  | Some items =>
      let results := map (cart_get_item (products s)) items in
      let subtotal :=
        fold_left (fun (sub : Q) '(ok, a) =>
                     if ok : bool
                     then (sub + ci_price (an_item a) * inject_Z (ci_quantity (an_item a)))%Q
                     else sub)
                  results 0%Q in
      let canCheckout :=
        fold_left (fun (c : bool) '(ok, _) => if ok : bool then c else false) results true in
      CartChecked (map snd results) subtotal canCheckout
  end.

(** ** Vocabulary of the further properties *)

(** The variant list after an operation, whether or not it matches. *)
Definition bump (size colorName : string) (delta : Z) (vs : list Variant) : list Variant :=
  default vs (inc_first size colorName delta vs).

Definition bump_product (size colorName : string) (delta : Z) (p : Product) : Product :=
  mkProduct (p_name p) (bump size colorName delta (p_variants p)).

(** An operation alters the product it names, in place. *)
Definition apply_op (ps : gmap string Product) (op : UpdateOne) : gmap string Product :=
  alter (bump_product (f_size op) (f_colorName op) (inc_stock op)) (f_id op) ps.

(** Whether the variant key of an operation exists in the ledger. *)
Definition op_matches (ps : gmap string Product) (op : UpdateOne) : bool :=
  match stockOf ps (f_id op) (f_size op) (f_colorName op) with
  | Some _ => true
  | None => false
  end.

(** Everything of a product but the stock counts. *)
Definition product_shape (p : Product) : string * list (string * string * string) :=
  (p_name p, map (fun v => (v_size v, v_colorName v, v_colorHex v)) (p_variants p)).

(** The variant of the item exists and holds at least its quantity. *)
Definition in_stock (ps : gmap string Product) (item : OrderItem) : Prop :=
  exists st, stockOf ps (oi_product item) (oi_size item) (oi_colorName item) = Some st
             /\ oi_quantity item <= st.

(** The flags of an order agree with its timestamps and its payment
    record. *)
Definition order_consistent (o : Order) : Prop :=
  (isPaid o = true <-> is_Some (paidAt o))
  /\ (isPaid o = true ->
      is_Some (razorpayPaymentId (paymentDetails o))
      /\ is_Some (razorpaySignature (paymentDetails o)))
  /\ (isDelivered o = true <-> is_Some (deliveredAt o))
  /\ is_Some (razorpayOrderId (paymentDetails o)).

Definition orders_consistent (s : State) : Prop :=
  forall id o, orders s !! id = Some o -> order_consistent o.



(** A line but for its quantity. *)
Definition line_identity (item : CartItem) : CartItem := with_quantity 0 item.

(** No product lists a variant key twice. *)
Definition unique_variants (ps : gmap string Product) : Prop :=
  map_Forall (fun _ p => NoDup (map (fun v => (v_size v, v_colorName v)) (p_variants p))) ps.

(** The stock a validator should report: the stock of the variant, [0]
    when there is none. *)
Definition ledger_stock (ps : gmap string Product) (pid size colorName : string) : Z :=
  default 0 (stockOf ps pid size colorName).

(** The sum of price times quantity over the lines that are
    sufficient. *)
Definition sufficient_total (anns : list (Annotated CartItem)) : Q :=
  fold_left (fun (sub : Q) a =>
               if hasSufficientStock a
               then (sub + ci_price (an_item a) * inject_Z (ci_quantity (an_item a)))%Q
               else sub)
            anns 0%Q.

(** The guest item that spells a cart line. *)
Definition guest_of (item : CartItem) : GuestItem :=
  mkGuestItem (ci_product item) (ci_name item) (ci_price item) (ci_image item)
              (ci_size item) (ci_colorName item) (ci_quantity item).

(** The order as Create saves it, and as Repay saves it. *)
Definition new_order (caller : User) (b : CreateBody) (g : GatewayOrder) : Order :=
  mkOrder (u_id caller) (cb_orderItems b) (cb_shippingAddress b)
          (mkPaymentDetails None (Some (go_id g)) None None)
          (cb_totalPrice b) false None false None false.


(** What a cart route of [caller] may change between [s] and [s']: the
    cart of that caller, and nothing else. *)
Definition cart_frame (caller : User) (s s' : State) : Prop :=
  products s' = products s
  /\ orders s' = orders s
  /\ (forall user, user <> u_id caller -> carts s' !! user = carts s !! user)
  /\ (carts_valid s -> carts_valid s').

(** The line DELETE /api/cart/remove keeps. *)
Definition other_line (product size colorName : string) (item : CartItem) : bool :=
  negb (same_line product size colorName item).

(** An item passes the stock check: the lookup finds its product, the
    product has its variant, and the variant holds at least its
    quantity. *)
Definition passes (find : string -> Awaited (string * Product)) (item : OrderItem) : Prop :=
  exists oid product variant,
    find (oi_product item) = Resolved (oid, product)
    /\ find_variant (oi_size item) (oi_colorName item) product = Some variant
    /\ oi_quantity item <= v_stock variant.

(** The body of Create with the items as the order stores them. *)
Definition with_items (items : list OrderItem) (b : CreateBody) : CreateBody :=
  mkCreateBody items (cb_shippingAddress b) (cb_totalPrice b).

(** The loop of /cart/merge passes over the item: an identifier is
    missing, or the lookup finds no product, no variant, or a variant
    without stock. *)
Definition skipped (ps : gmap string Product) (g : GuestItem) : Prop :=
  identified g = false
  \/ findById ps (g_productId g) = Falsy
  \/ exists oid product,
       findById ps (g_productId g) = Resolved (oid, product)
       /\ (find_variant (g_size g) (g_colorName g) product = None
           \/ exists variant,
                find_variant (g_size g) (g_colorName g) product = Some variant
                /\ v_stock variant = 0).

(** * Properties *)

(** ** The ledger *)

Section Ledger.

Implicit Types (ps : gmap string Product) (op : UpdateOne) (vs : list Variant).

Lemma variant_matches_bump size colorName v d :
  variant_matches size colorName
    (mkVariant (v_size v) (v_colorName v) (v_colorHex v) (v_stock v + d))
  = variant_matches size colorName v.
Proof. reflexivity. Qed.

Lemma inc_first_None size colorName d vs :
  inc_first size colorName d vs = None <-> List.find (variant_matches size colorName) vs = None.
Proof.
  induction vs as [|v vs IH]; simpl; [tauto|].
  destruct (variant_matches size colorName v); [split; discriminate|].
  destruct (inc_first size colorName d vs); simpl; split; intros H;
    try discriminate; try (apply IH in H; discriminate); tauto.
Qed.

Lemma inc_first_same size colorName d vs vs' :
  inc_first size colorName d vs = Some vs' ->
  option_map v_stock (List.find (variant_matches size colorName) vs')
  = option_map (fun n => n + d) (option_map v_stock (List.find (variant_matches size colorName) vs)).
Proof.
  revert vs'. induction vs as [|v vs IH]; simpl; intros vs' H; [discriminate|].
  destruct (variant_matches size colorName v) eqn:Hm.
  - injection H as <-. simpl. rewrite variant_matches_bump, Hm. reflexivity.
  - destruct (inc_first size colorName d vs) as [ws|]; [|discriminate].
    injection H as <-. simpl. rewrite Hm. apply IH. reflexivity.
Qed.

Lemma variant_matches_both size colorName size' colorName' v :
  variant_matches size colorName v = true ->
  variant_matches size' colorName' v = true ->
  size = size' /\ colorName = colorName'.
Proof.
  unfold variant_matches. rewrite !andb_true_iff, !String.eqb_eq.
  intros [<- <-] [<- <-]. split; reflexivity.
Qed.

Lemma inc_first_other size colorName size' colorName' d vs vs' :
  ~ (size = size' /\ colorName = colorName') ->
  inc_first size colorName d vs = Some vs' ->
  List.find (variant_matches size' colorName') vs'
  = List.find (variant_matches size' colorName') vs.
Proof.
  intros Hne. revert vs'. induction vs as [|v vs IH]; simpl; intros vs' H; [discriminate|].
  destruct (variant_matches size colorName v) eqn:Hm.
  - injection H as <-. simpl. rewrite variant_matches_bump.
    destruct (variant_matches size' colorName' v) eqn:Hm'; [|reflexivity].
    exfalso. apply Hne. eapply variant_matches_both; eassumption.
  - destruct (inc_first size colorName d vs) as [ws|]; [|discriminate].
    injection H as <-. simpl.
    destruct (variant_matches size' colorName' v); [reflexivity|]. apply IH. reflexivity.
Qed.

Lemma targets_true pid size colorName op :
  targets pid size colorName op = true <->
  f_id op = pid /\ f_size op = size /\ f_colorName op = colorName.
Proof. unfold targets. rewrite !andb_true_iff, !String.eqb_eq. tauto. Qed.

(** One operation moves the stock of the key it designates by its
    increment and no other. *)
Lemma stockOf_updateOne op ps pid size colorName :
  stockOf (fst (updateOne op ps)) pid size colorName
  = if targets pid size colorName op
    then option_map (fun n => n + inc_stock op) (stockOf ps pid size colorName)
    else stockOf ps pid size colorName.
Proof.
  unfold updateOne, stockOf, find_variant.
  destruct (targets pid size colorName op) eqn:Ht.
  - apply targets_true in Ht as (<- & <- & <-).
    destruct (ps !! f_id op) as [p|] eqn:Hp; simpl; [|rewrite Hp; reflexivity].
    destruct (inc_first _ _ _ (p_variants p)) as [vs|] eqn:Hi; simpl.
    + rewrite lookup_insert_eq. simpl. eapply inc_first_same, Hi.
    + rewrite Hp. apply inc_first_None in Hi. rewrite Hi. reflexivity.
  - destruct (ps !! f_id op) as [p|] eqn:Hp; simpl; [|reflexivity].
    destruct (inc_first _ _ _ (p_variants p)) as [vs|] eqn:Hi; simpl; [|reflexivity].
    destruct (decide (f_id op = pid)) as [<-|Hne].
    + rewrite lookup_insert_eq, Hp. simpl. f_equal.
      eapply inc_first_other; [|exact Hi].
      intros [<- <-]. apply not_true_iff_false in Ht. apply Ht.
      apply targets_true. auto.
    + rewrite lookup_insert_ne by exact Hne. reflexivity.
Qed.

Lemma bulkWrite_acc ops ps n :
  fold_left (fun acc op => let '(ps', k) := updateOne op (fst acc) in (ps', (snd acc + k)%nat))
            ops (ps, n)
  = (fst (bulkWrite ops ps), (n + snd (bulkWrite ops ps))%nat).
Proof.
  unfold bulkWrite. revert ps n. induction ops as [|op ops IH]; intros ps n; simpl.
  - f_equal. lia.
  - destruct (updateOne op ps) as [ps' k]. rewrite (IH ps' (n + k)%nat), (IH ps' k).
    simpl. f_equal. lia.
Qed.

Lemma bulkWrite_cons op ops ps :
  bulkWrite (op :: ops) ps
  = (fst (bulkWrite ops (fst (updateOne op ps))),
     (snd (updateOne op ps) + snd (bulkWrite ops (fst (updateOne op ps))))%nat).
Proof.
  unfold bulkWrite at 1. simpl. destruct (updateOne op ps) as [ps' k].
  rewrite bulkWrite_acc. reflexivity.
Qed.

(** A batch moves the stock of every variant key by the sum of the
    increments addressed to it. *)
Lemma stockOf_bulkWrite ops ps pid size colorName :
  stockOf (fst (bulkWrite ops ps)) pid size colorName
  = option_map (fun n => n + total_inc pid size colorName ops)
               (stockOf ps pid size colorName).
Proof.
  revert ps. induction ops as [|op ops IH]; intros ps.
  - simpl. destruct (stockOf ps pid size colorName); simpl; f_equal; lia.
  - rewrite bulkWrite_cons. simpl fst. rewrite IH, stockOf_updateOne. simpl.
    destruct (targets pid size colorName op);
      destruct (stockOf ps pid size colorName); simpl; f_equal; lia.
Qed.

(** A variant key exists after a batch exactly when it existed before. *)
Lemma stockOf_bulkWrite_None ops ps pid size colorName :
  stockOf (fst (bulkWrite ops ps)) pid size colorName = None
  <-> stockOf ps pid size colorName = None.
Proof.
  rewrite stockOf_bulkWrite. destruct (stockOf ps pid size colorName); simpl; split; congruence.
Qed.

(** The number of documents an operation matches: one when its variant
    key exists, none otherwise. *)
Lemma matched_updateOne op ps :
  snd (updateOne op ps)
  = match stockOf ps (f_id op) (f_size op) (f_colorName op) with
    | Some _ => 1%nat
    | None => 0%nat
    end.
Proof.
  unfold updateOne, stockOf, find_variant.
  destruct (ps !! f_id op) as [p|]; [|reflexivity].
  destruct (inc_first _ _ _ (p_variants p)) as [vs|] eqn:Hi; simpl.
  - destruct (List.find _ (p_variants p)) eqn:Hf; [reflexivity|].
    apply (inc_first_None _ _ (inc_stock op)) in Hf. rewrite Hf in Hi. discriminate.
  - apply inc_first_None in Hi. rewrite Hi. reflexivity.
Qed.

End Ledger.

(** ** Orders and the ledger *)

Lemma total_inc_stock_op sign pid size colorName items :
  total_inc pid size colorName (map (stock_op sign) items)
  = sign * ordered_quantity pid size colorName items.
Proof.
  induction items as [|item items IH]; simpl; [lia|].
  unfold targets, item_of, stock_op in *. simpl.
  destruct (_ && _); rewrite IH; lia.
Qed.

(** Verify on an unpaid order, with the expected signature and a payment
    the gateway knows: the batch of decrements, then the order saved as
    paid. *)
Lemma verify_accepts gw caller now b s order method :
  orders s !! order_id b = Some order ->
  isPaid order = false ->
  expectedSignature gw b = razorpay_signature b ->
  payments_fetch gw (razorpay_payment_id b) = Resolved method ->
  verify gw caller now b s
  = (save_order (order_id b) (paid_order now method b order)
       (set_products (fst (bulkWrite (map (stock_op (-1)) (orderItems order)) (products s))) s),
     send 200 (PaymentVerified (order_id b) (razorpay_payment_id b))).
Proof.
  intros Ho Hp Hs Hf. unfold verify. rewrite Ho, Hp, Hs, String.eqb_refl, Hf. reflexivity.
Qed.

Lemma verify_paid gw caller now b s order :
  orders s !! order_id b = Some order ->
  isPaid order = true ->
  verify gw caller now b s = (s, send 200 (Message "Payment already verified")).
Proof. intros Ho Hp. unfold verify. rewrite Ho, Hp. reflexivity. Qed.

(** C1: the stock of a variant is driven below zero by the routes
    themselves.  Two checkouts of two units each are created against a
    stock of three (each passes the stock check of Create, which reserves
    nothing); both are then verified with a valid signature.  The second
    Verify is answered with success and leaves the stock at [-1]. *)
Theorem verify_leaves_negative_stock :
  stockOf (products Example.two_orders) Example.P "M" "Black" = Some 3
  /\ option_map isPaid (orders Example.two_orders !! "o1") = Some false
  /\ option_map isPaid (orders Example.two_orders !! "o2") = Some false
  /\ stockOf (products Example.one_paid) Example.P "M" "Black" = Some 1
  /\ verify Example.gw Example.bob 4 (Example.pay "o2") Example.one_paid
     = (Example.oversold, send 200 (PaymentVerified "o2" "pay_1"))
  /\ stockOf (products Example.oversold) Example.P "M" "Black" = Some (-1).
Proof. vm_compute. repeat split; reflexivity. Qed.

(** C2: Verify is idempotent.  On an order that is already paid it
    answers with success and changes nothing: no stock, no field of the
    order.  And of two consecutive Verify calls with the same valid
    input on an unpaid order, the first succeeds and decrements every
    variant by the quantity ordered of it, the second succeeds and leaves
    the state of the first, so that the ledger is decremented once. *)
Theorem verify_idempotent :
  (forall gw caller now b s order,
      orders s !! order_id b = Some order ->
      isPaid order = true ->
      verify gw caller now b s = (s, send 200 (Message "Payment already verified")))
  /\
  (forall gw caller now caller' now' b s order method,
      orders s !! order_id b = Some order ->
      isPaid order = false ->
      expectedSignature gw b = razorpay_signature b ->
      payments_fetch gw (razorpay_payment_id b) = Resolved method ->
      let first := verify gw caller now b s in
      let second := verify gw caller' now' b (fst first) in
      snd first = send 200 (PaymentVerified (order_id b) (razorpay_payment_id b))
      /\ snd second = send 200 (Message "Payment already verified")
      /\ fst second = fst first
      /\ orders (fst second) !! order_id b = Some (paid_order now method b order)
      /\ forall pid size colorName,
          stockOf (products (fst second)) pid size colorName
          = option_map (fun n => n - ordered_quantity pid size colorName (orderItems order))
                       (stockOf (products s) pid size colorName)).
Proof.
  split; [exact verify_paid|].
  intros gw caller now caller' now' b s order method Ho Hp Hs Hf first second.
  subst second first. rewrite (verify_accepts _ _ _ _ _ _ _ Ho Hp Hs Hf). simpl fst. simpl snd.
  set (s' := save_order _ _ _).
  assert (Ho' : orders s' !! order_id b = Some (paid_order now method b order))
    by (subst s'; simpl; apply lookup_insert_eq).
  rewrite (verify_paid gw caller' now' b s' _ Ho' eq_refl). simpl.
  repeat split; [exact Ho'|].
  intros pid size colorName. subst s'. simpl.
  rewrite stockOf_bulkWrite, total_inc_stock_op.
  destruct (stockOf (products s) pid size colorName); simpl; f_equal; lia.
Qed.

Lemma verify_idempotent_witness :
  let s := fst (create_order Example.gw Example.alice 1 "o1" (Example.checkout 2) (Example.shop 3)) in
  let first := verify Example.gw Example.alice 2 (Example.pay "o1") s in
  let second := verify Example.gw Example.alice 3 (Example.pay "o1") (fst first) in
  snd second = send 200 (Message "Payment already verified")
  /\ fst second = fst first
  /\ stockOf (products (fst second)) Example.P "M" "Black" = Some 1
  /\ verify Example.gw Example.bob 9 (Example.pay "o1") (fst first)
     = (fst first, send 200 (Message "Payment already verified")).
Proof.
  intros s first second.
  destruct verify_idempotent as [Hpaid Htwice].
  pose (o1 := mkOrder "u-alice" [Example.item 2] Example.home
                      (mkPaymentDetails None (Some "order_1") None None)
                      998 false None false None false).
  destruct (Htwice Example.gw Example.alice 2 Example.alice 3 (Example.pay "o1") s o1
              (Some "upi") eq_refl eq_refl eq_refl eq_refl)
    as (_ & H2 & H3 & H4 & H5).
  split; [exact H2|]. split; [exact H3|]. split.
  - subst second first. rewrite H5. reflexivity.
  - exact (Hpaid Example.gw Example.bob 9 (Example.pay "o1") (fst first)
             (paid_order 2 (Some "upi") (Example.pay "o1") o1) eq_refl eq_refl).
Defined.

(** C3: on an unpaid order, a Verify whose signature is not the
    hex-encoded HMAC-SHA256 of [razorpay_order_id + "|" +
    razorpay_payment_id] under the gateway secret is rejected with the
    signature error and leaves the whole state as it was: no stock is
    decremented and the order is not touched. *)
Theorem verify_rejects_bad_signature gw caller now b s order :
  orders s !! order_id b = Some order ->
  isPaid order = false ->
  hmac_sha256_hex gw (key_secret gw) (razorpay_order_id b +:+ "|" +:+ razorpay_payment_id b)
    <> razorpay_signature b ->
  verify gw caller now b s
  = (s, send 400 (Message "Payment verification failed: Invalid signature")).
Proof.
  intros Ho Hp Hs. unfold verify, expectedSignature. rewrite Ho, Hp.
  apply String.eqb_neq in Hs. rewrite Hs. reflexivity.
Qed.

Lemma verify_rejects_bad_signature_witness :
  let s := fst (create_order Example.gw Example.alice 1 "o1" (Example.checkout 2) (Example.shop 3)) in
  let forged := mkVerifyBody "order_1" "pay_1" "0000" "o1" in
  verify Example.gw Example.alice 2 forged s
  = (s, send 400 (Message "Payment verification failed: Invalid signature")).
Proof.
  intros s forged.
  apply (verify_rejects_bad_signature Example.gw Example.alice 2 forged s
           (mkOrder "u-alice" [Example.item 2] Example.home
                    (mkPaymentDetails None (Some "order_1") None None)
                    998 false None false None false)).
  - reflexivity.
  - reflexivity.
  - vm_compute. discriminate.
Defined.




(** C10: Verify does not look at who calls it.  The outcome, state and
    response, is the same for any two callers; in particular a caller
    who does not own an unpaid order gets it verified.  Cancel and Repay
    answer "Not authorized" to a caller who is not the owner and change
    nothing. *)
Theorem verify_has_no_owner_check :
  (forall gw A B now b s, verify gw A now b s = verify gw B now b s)
  /\
  (forall gw caller now b s order method,
      orders s !! order_id b = Some order ->
      o_user order <> u_id caller ->
      isPaid order = false ->
      expectedSignature gw b = razorpay_signature b ->
      payments_fetch gw (razorpay_payment_id b) = Resolved method ->
      snd (verify gw caller now b s)
      = send 200 (PaymentVerified (order_id b) (razorpay_payment_id b))
      /\ option_map isPaid (orders (fst (verify gw caller now b s)) !! order_id b) = Some true)
  /\
  (forall caller id s order,
      orders s !! id = Some order ->
      o_user order <> u_id caller ->
      cancel caller id s = (s, send 401 (Message "Not authorized")))
  /\
  (forall gw caller now id s order,
      orders s !! id = Some order ->
      o_user order <> u_id caller ->
      repay gw caller now id s = (s, send 401 (Message "Not authorized"))).
Proof.
  repeat apply conj.
  - reflexivity.
  - intros gw caller now b s order method Ho _ Hp Hs Hf.
    rewrite (verify_accepts _ _ _ _ _ _ _ Ho Hp Hs Hf). simpl.
    rewrite lookup_insert_eq. auto.
  - intros caller id s order Ho Hu. unfold cancel. rewrite Ho.
    apply String.eqb_neq in Hu. rewrite Hu. reflexivity.
  - intros gw caller now id s order Ho Hu. unfold repay. rewrite Ho.
    apply String.eqb_neq in Hu. rewrite Hu. reflexivity.
Qed.

Lemma verify_has_no_owner_check_witness :
  let s := fst (create_order Example.gw Example.alice 1 "o1" (Example.checkout 2) (Example.shop 3)) in
  snd (verify Example.gw Example.bob 2 (Example.pay "o1") s)
  = send 200 (PaymentVerified "o1" "pay_1")
  /\ cancel Example.bob "o1" s = (s, send 401 (Message "Not authorized"))
  /\ repay Example.gw Example.bob 2 "o1" s = (s, send 401 (Message "Not authorized")).
Proof.
  intros s.
  destruct verify_has_no_owner_check as (_ & Hv & Hc & Hr).
  pose (o1 := mkOrder "u-alice" [Example.item 2] Example.home
                      (mkPaymentDetails None (Some "order_1") None None)
                      998 false None false None false).
  assert (Hne : o_user o1 <> u_id Example.bob) by (vm_compute; discriminate).
  split.
  { exact (proj1 (Hv Example.gw Example.bob 2 (Example.pay "o1") s o1 (Some "upi")
                    eq_refl Hne eq_refl eq_refl eq_refl)). }
  split.
  { exact (Hc Example.bob "o1" s o1 eq_refl Hne). }
  exact (Hr Example.gw Example.bob 2 "o1" s o1 eq_refl Hne).
Defined.

(** ** What Verify reports of its batch *)

(** Neither the response, nor the console, nor the orders Verify leaves
    depend on the products. *)
Lemma verify_reply_products gw caller now b s ps :
  snd (verify gw caller now b (set_products ps s)) = snd (verify gw caller now b s)
  /\ orders (fst (verify gw caller now b (set_products ps s)))
     = orders (fst (verify gw caller now b s)).
Proof.
  unfold verify. simpl.
  destruct (orders s !! order_id b) as [order|]; [|split; reflexivity].
  destruct (isPaid order); [split; reflexivity|].
  destruct (negb _); [split; reflexivity|].
  destruct (payments_fetch gw (razorpay_payment_id b)); split; reflexivity.
Qed.

(** C6, as stated, fails: the decrement of an order item whose variant
    was renamed matches no document, and Verify answers exactly as it
    does when the variant is there: same response, nothing on the
    console, the same order saved as paid.  The stock of no variant is
    changed. *)
Lemma verify_zero_rows_unreported :
  snd (bulkWrite Renamed.ops (products Renamed.before)) = 1%nat
  /\ snd (bulkWrite Renamed.ops (products Renamed.after)) = 0%nat
  /\ snd (verify Example.gw Example.alice 2 (Example.pay "o1") Renamed.after)
     = snd (verify Example.gw Example.alice 2 (Example.pay "o1") Renamed.before)
  /\ snd (verify Example.gw Example.alice 2 (Example.pay "o1") Renamed.after)
     = mkReply (mkResponse 200 (PaymentVerified "o1" "pay_1")) []
  /\ orders (fst (verify Example.gw Example.alice 2 (Example.pay "o1") Renamed.after))
     = orders (fst (verify Example.gw Example.alice 2 (Example.pay "o1") Renamed.before))
  /\ products (fst (verify Example.gw Example.alice 2 (Example.pay "o1") Renamed.after))
     = products Renamed.after.
Proof. vm_compute. repeat split; reflexivity. Qed.

(** C6, amended: the matched count of the batch is dropped.  Whatever
    the products are, and so however many decrements match nothing,
    Verify sends the same response, writes the same console lines and
    leaves the same orders.  The batch is not aborted by an operation
    that matches nothing: after a Verify that accepts the payment every
    variant that exists has lost the quantity ordered of it, and a
    variant that does not exist is not created. *)
Theorem verify_drops_matched_count :
  (forall gw caller now b s ps,
      snd (verify gw caller now b (set_products ps s)) = snd (verify gw caller now b s)
      /\ orders (fst (verify gw caller now b (set_products ps s)))
         = orders (fst (verify gw caller now b s)))
  /\
  (forall gw caller now b s order method,
      orders s !! order_id b = Some order ->
      isPaid order = false ->
      expectedSignature gw b = razorpay_signature b ->
      payments_fetch gw (razorpay_payment_id b) = Resolved method ->
      forall pid size colorName,
        stockOf (products (fst (verify gw caller now b s))) pid size colorName
        = option_map (fun n => n - ordered_quantity pid size colorName (orderItems order))
                     (stockOf (products s) pid size colorName)).
Proof.
  split; [exact verify_reply_products|].
  intros gw caller now b s order method Ho Hp Hs Hf pid size colorName.
  rewrite (verify_accepts _ _ _ _ _ _ _ Ho Hp Hs Hf). simpl.
  rewrite stockOf_bulkWrite, total_inc_stock_op.
  destruct (stockOf (products s) pid size colorName); simpl; f_equal; lia.
Qed.

(** An order of two items, the first of a variant that is gone, the
    second of one that is there: the second decrement is applied. *)
Lemma verify_drops_matched_count_witness :
  let order := mkOrder "u-alice"
                 [Example.item 2;
                  mkOrderItem "Shirt" 4 (499 # 1) "shirt.png" "L" "Black" Example.P]
                 Example.home (mkPaymentDetails None (Some "order_1") None None)
                 2994 false None false None false in
  let s := mkState (<[Example.P := Renamed.renamed]> ∅) (<["o1" := order]> ∅) ∅ in
  let s' := fst (verify Example.gw Example.alice 2 (Example.pay "o1") s) in
  stockOf (products s') Example.P "M" "Black" = None
  /\ stockOf (products s') Example.P "L" "Black" = Some 3.
Proof.
  intros order s s'.
  destruct verify_drops_matched_count as [_ H].
  subst s'. split.
  - rewrite (H Example.gw Example.alice 2 (Example.pay "o1") s order (Some "upi")
               eq_refl eq_refl eq_refl eq_refl).
    reflexivity.
  - rewrite (H Example.gw Example.alice 2 (Example.pay "o1") s order (Some "upi")
               eq_refl eq_refl eq_refl eq_refl).
    reflexivity.
Defined.

(** ** The stock validators *)





(** Every entry of the [stockMap] is the stock of a variant of a product
    that was found. *)
Lemma stockMap_add_fold id vs m k n :
  fold_left (stockMap_add id) vs m !! k = Some n ->
  m !! k = Some n
  \/ exists v, In v vs /\ k = itemKey id (v_size v) (v_colorName v) /\ n = v_stock v.
Proof.
  revert m. induction vs as [|v vs IH]; intros m; simpl; [auto|].
  intros H. apply IH in H as [H | (w & Hw & Hk & Hn)].
  - unfold stockMap_add in H.
    destruct (decide (itemKey id (v_size v) (v_colorName v) = k)) as [<-|Hne].
    + rewrite lookup_insert_eq in H. injection H as <-. right. exists v. auto.
    + rewrite lookup_insert_ne in H by exact Hne. auto.
  - right. exists w. auto.
Qed.

Lemma stockMap_of_fold found m k n :
  fold_left (fun m '(id, p) => fold_left (stockMap_add id) (p_variants p) m) found m !! k = Some n ->
  m !! k = Some n
  \/ exists id p v, In (id, p) found /\ In v (p_variants p)
                    /\ k = itemKey id (v_size v) (v_colorName v) /\ n = v_stock v.
Proof.
  revert m. induction found as [|[id p] found IH]; intros m; simpl; [auto|].
  intros H. apply IH in H as [H | (id' & p' & v & Hin & Hv & Hk & Hn)].
  - apply stockMap_add_fold in H as [H | (v & Hv & Hk & Hn)]; [auto|].
    right. exists id, p, v. auto.
  - right. exists id', p', v. auto.
Qed.

Lemma stockMap_of_Some found k n :
  stockMap_of found !! k = Some n ->
  exists id p v, In (id, p) found /\ In v (p_variants p)
                 /\ k = itemKey id (v_size v) (v_colorName v) /\ n = v_stock v.
Proof.
  intros H. apply stockMap_of_fold in H as [H | H]; [|exact H].
  rewrite lookup_empty in H. discriminate.
Qed.

Lemma find_in_In ids ps id p :
  In (id, p) (find_in ids ps) -> ps !! id = Some p.
Proof.
  unfold find_in. induction ids as [|i ids IH]; simpl; [tauto|].
  destruct (ps !! i) as [q|] eqn:Hq; simpl; [|exact IH].
  intros [[= <- <-] | H]; [exact Hq | apply IH, H].
Qed.



Lemma distinct_In ids id : In id (distinct ids) <-> In id ids.
Proof.
  induction ids as [|a ids IH]; simpl; [tauto|].
  rewrite filter_In, IH. split.
  - intros [H | [H _]]; auto.
  - intros [H | H]; [auto|].
    destruct (String.eqb_spec id a) as [->|Hne]; [auto|]. right. auto.
Qed.

Lemma cast_id_castable {A : Type} (docs : gmap string A) id :
  is_Some (castObjectId id) -> is_Some (cast_id docs id).
Proof. intros H. unfold cast_id. destruct (docs !! id); [eauto | exact H]. Qed.

(** The query of /validate-cart on ids that all cast. *)
Lemma find_by_ids_castable ps (items : list Pick) :
  Forall (fun p => is_Some (castObjectId (pk_id p))) items ->
  exists oids,
    mapM (cast_id ps) (distinct (map pk_id items)) = Some oids
    /\ find_by_ids (distinct (map pk_id items)) ps = Some (find_in (distinct oids) ps).
Proof.
  intros Hc.
  assert (Hs : is_Some (mapM (cast_id ps) (distinct (map pk_id items)))).
  { apply mapM_is_Some. rewrite Forall_forall. intros id Hid.
    apply list_elem_of_In, distinct_In, in_map_iff in Hid as (p & <- & Hp).
    apply cast_id_castable. rewrite Forall_forall in Hc. apply Hc, list_elem_of_In, Hp. }
  destruct Hs as [oids Ho]. exists oids. split; [exact Ho|].
  unfold find_by_ids. rewrite Ho. reflexivity.
Qed.





(** ** Items whose product or variant is gone *)

Lemma append_empty (b : string) : "" +:+ b = b.
Proof. reflexivity. Qed.

Lemma append_char c (a b : string) : String c a +:+ b = String c (a +:+ b).
Proof. reflexivity. Qed.

Lemma joined_inj a b a' b' :
  no_dash a = true -> no_dash a' = true ->
  a +:+ "-" +:+ b = a' +:+ "-" +:+ b' -> a = a' /\ b = b'.
Proof.
  revert a'. induction a as [|c a IH]; intros [|c' a'];
    repeat (rewrite append_empty || rewrite append_char); simpl.
  - intros _ _ [= ->]. auto.
  - intros _ H [= <- _]. discriminate H.
  - intros H _ [= -> _]. discriminate H.
  - intros H H' [= <- Heq].
    apply andb_true_iff in H as [_ H]. apply andb_true_iff in H' as [_ H'].
    destruct (IH a' H H' Heq) as [-> ->]. auto.
Qed.

Lemma itemKey_inj p sz c p' sz' c' :
  no_dash p = true -> no_dash p' = true -> no_dash sz = true -> no_dash sz' = true ->
  itemKey p sz c = itemKey p' sz' c' -> p = p' /\ sz = sz' /\ c = c'.
Proof.
  unfold itemKey. intros Hp Hp' Hs Hs' H.
  apply joined_inj in H as [-> H]; [|assumption..].
  apply joined_inj in H as [-> ->]; auto.
Qed.

Lemma plain_keys_In ps id p v :
  plain_keys ps -> ps !! id = Some p -> In v (p_variants p) ->
  no_dash id = true /\ no_dash (v_size v) = true.
Proof.
  intros Hk Hp Hv. apply (map_Forall_lookup_1 _ _ _ _ Hk) in Hp as [Hid Hvs].
  split; [exact Hid|]. rewrite Forall_forall in Hvs. apply Hvs, list_elem_of_In, Hv.
Qed.

Lemma stockOf_None_In ps id p v :
  ps !! id = Some p -> In v (p_variants p) ->
  stockOf ps id (v_size v) (v_colorName v) <> None.
Proof.
  intros Hp Hv. unfold stockOf, find_variant. rewrite Hp.
  destruct (List.find _ (p_variants p)) eqn:Hf; [discriminate|].
  apply (find_none _ _ Hf) in Hv. unfold variant_matches in Hv.
  rewrite !String.eqb_refl in Hv. discriminate.
Qed.

(** A key of a variant that does not exist is not in the [stockMap]. *)
Lemma stockMap_missing ps ids pid size colorName :
  stockOf ps pid size colorName = None ->
  plain_keys ps -> no_dash pid = true -> no_dash size = true ->
  stockMap_of (find_in ids ps) !! itemKey pid size colorName = None.
Proof.
  intros Hnone Hk Hpid Hsz.
  destruct (stockMap_of _ !! _) as [n|] eqn:Hn; [|reflexivity].
  apply stockMap_of_Some in Hn as (id & q & v & Hin & Hv & Hkey & _).
  apply find_in_In in Hin.
  destruct (plain_keys_In _ _ _ _ Hk Hin Hv) as [Hid Hvs].
  apply itemKey_inj in Hkey as (-> & -> & ->); [|assumption..].
  exfalso. exact (stockOf_None_In _ _ _ _ Hin Hv Hnone).
Qed.

Lemma validate_guest_item_item ps g :
  an_item (snd (fst (validate_guest_item ps g))) = g.
Proof.
  unfold validate_guest_item.
  destruct (_ || _); [reflexivity|].
  destruct (ps !! g_productId g) as [p|]; [|reflexivity].
  destruct (find_variant _ _ p) as [v|]; [|reflexivity].
  destruct (v_stock v =? 0); [reflexivity|].
  destruct (v_stock v <? g_quantity g); reflexivity.
Qed.

Lemma guest_flag_fold (results : list (bool * Annotated GuestItem * list string)) c :
  fold_left (fun (c : bool) '(ok, _, _) => if ok : bool then c else false) results c
  = c && forallb (fun r => fst (fst r)) results.
Proof.
  revert c. induction results as [|[[ok a] l] rs IH]; intros c; simpl;
    [symmetry; apply andb_true_r|].
  rewrite IH. destruct ok, c; reflexivity.
Qed.

(** C9: one item aborts a validation batch.  On /validate-cart a batch
    that holds an item of a product that is there, an item of a product
    that was deleted and an item whose id is no ObjectId is answered
    with the 500 of the route: no item is annotated and no summary is
    sent.  Without the last item the same route returns the two others
    annotated, the deleted one as out of stock.  /cart/validate-guest,
    which catches the error item by item, returns the three items
    annotated, the last two as out of stock, with
    [canCheckout = false]. *)
Theorem validate_cart_aborts_batch :
  let stale := mkPick Example.gone "M" "Black" 1 in
  let bad := mkPick "zzz" "M" "Black" 1 in
  let staleG := mkGuestItem Example.gone "Cap" (99 # 1) "cap.png" "M" "Black" 1 in
  products (Example.shop 3) !! Example.gone = None
  /\ validate_cart (Some [Example.pick 1; stale; bad]) (Example.shop 3)
     = fail 500 (Message "Server error") "Error validating stock:"
  /\ validate_cart (Some [Example.pick 1; stale]) (Example.shop 3)
     = send 200 (ValidatedCart [mkAnnotated (Example.pick 1) 3 true (Some true) false;
                                mkAnnotated stale 0 false (Some false) true]
                               false)
  /\ response (validate_guest (Some [Example.guest 1; staleG; Example.stray 1]) (Example.shop 3))
     = mkResponse 200
         (ValidatedGuest [mkAnnotated (Example.guest 1) 3 true (Some true) false;
                          out_of_stock staleG; out_of_stock (Example.stray 1)]
                         false).
Proof. vm_compute. repeat split; reflexivity. Qed.

(** ** The cart store *)

Section FindIndex.

Context {A : Type} (f : A -> bool).

Lemma findIndex_Some (l : list A) i x :
  findIndex f l = Some (i, x) ->
  l !! i = Some x /\ f x = true
  /\ forall j y, l !! j = Some y -> (j < i)%nat -> f y = false.
Proof.
  revert i. induction l as [|a l IH]; intros i; simpl; [discriminate|].
  destruct (f a) eqn:Ha.
  - intros [= <- <-]. repeat split; [assumption|]. intros j y _ Hj. lia.
  - destruct (findIndex f l) as [[k y]|]; [|discriminate].
    intros [= <- <-]. destruct (IH k eq_refl) as (Hl & Hf & Hlt).
    repeat split; [exact Hl | exact Hf |].
    intros [|j] z Hz Hj; simpl in Hz; [congruence|]. apply (Hlt j); [exact Hz | lia].
Qed.

Lemma findIndex_None (l : list A) :
  findIndex f l = None -> forall x, In x l -> f x = false.
Proof.
  induction l as [|a l IH]; simpl; [tauto|].
  destruct (f a) eqn:Ha; [discriminate|].
  destruct (findIndex f l) as [[k y]|]; [discriminate|].
  intros _ x [<- | Hx]; [exact Ha | apply IH; [reflexivity | exact Hx]].
Qed.

Lemma findIndex_last (l : list A) x :
  findIndex f l = None -> f x = true ->
  findIndex f (l ++ [x]) = Some (length l, x).
Proof.
  intros Hn Hx. induction l as [|a l IH]; simpl in *; [rewrite Hx; reflexivity|].
  destruct (f a); [discriminate|].
  destruct (findIndex f l) as [[k y]|]; [discriminate|].
  rewrite IH by reflexivity. reflexivity.
Qed.

Lemma findIndex_ext (g : A -> bool) (l : list A) :
  (forall x, In x l -> f x = g x) -> findIndex f l = findIndex g l.
Proof.
  induction l as [|a l IH]; intros H; simpl; [reflexivity|].
  rewrite (H a) by (left; reflexivity). rewrite IH by (intros x Hx; apply H; right; exact Hx).
  reflexivity.
Qed.

End FindIndex.

Lemma alter_last {A : Type} (f : A -> A) (l : list A) x :
  alter f (length l) (l ++ [x]) = l ++ [f x].
Proof. induction l as [|a l IH]; simpl; [reflexivity|]. f_equal. exact IH. Qed.

Lemma same_line_with_quantity pid size colorName q item :
  same_line pid size colorName (with_quantity q item) = same_line pid size colorName item.
Proof. reflexivity. Qed.

Lemma lines_of_alter pid size colorName q i items :
  lines_of pid size colorName (alter (with_quantity q) i items)
  = lines_of pid size colorName items.
Proof.
  unfold lines_of. revert i. induction items as [|a l IH]; intros [|i]; simpl; try reflexivity.
  - rewrite same_line_with_quantity. destruct (same_line _ _ _ a); reflexivity.
  - destruct (same_line _ _ _ a); simpl; [f_equal|]; apply IH.
Qed.

Lemma lines_of_absent pid size colorName items :
  findIndex (same_line pid size colorName) items = None ->
  lines_of pid size colorName items = 0%nat.
Proof.
  intros H. unfold lines_of. induction items as [|a l IH]; simpl in *; [reflexivity|].
  destruct (same_line _ _ _ a); [discriminate|].
  destruct (findIndex _ l) as [[k y]|]; [discriminate|]. apply IH. reflexivity.
Qed.

Lemma lines_of_app pid size colorName l l' :
  lines_of pid size colorName (l ++ l')
  = (lines_of pid size colorName l + lines_of pid size colorName l')%nat.
Proof. unfold lines_of. rewrite List.filter_app, length_app. reflexivity. Qed.

Lemma cart_valid_alter q i items :
  cart_valid items = true -> 1 <= q ->
  cart_valid (alter (with_quantity q) i items) = true.
Proof.
  unfold cart_valid. intros Hv Hq. revert i Hv.
  induction items as [|a l IH]; intros i Hv; [destruct i; reflexivity|].
  simpl in Hv. apply andb_true_iff in Hv as [Ha Hl].
  destruct i as [|i]; simpl; apply andb_true_iff; split.
  - unfold cartItem_valid in *. simpl.
    rewrite !andb_true_iff in *. destruct Ha as [Hs _]. split; [exact Hs|]. apply Z.leb_le, Hq.
  - exact Hl.
  - exact Ha.
  - apply IH, Hl.
Qed.

Lemma cart_valid_existing items i x :
  cart_valid items = true -> items !! i = Some x -> 1 <= ci_quantity x.
Proof.
  unfold cart_valid. rewrite forallb_forall. intros Hv Hx.
  apply list_elem_of_lookup_2, list_elem_of_In, Hv in Hx.
  unfold cartItem_valid in Hx. rewrite !andb_true_iff in Hx. apply Z.leb_le, Hx.
Qed.

Lemma cart_valid_line b q :
  complete b = true -> 1 <= q -> cartItem_valid (line_of b q) = true.
Proof.
  unfold complete, cartItem_valid, line_of. simpl. intros Hc Hq.
  apply negb_true_iff in Hc. rewrite !orb_false_iff in Hc.
  destruct Hc as ((((((_ & -> ) & ->) & _) & ->) & _) & ->). simpl. apply Z.leb_le, Hq.
Qed.

Lemma cart_valid_push items b q :
  cart_valid items = true -> complete b = true -> 1 <= q ->
  cart_valid (items ++ [line_of b q]) = true.
Proof.
  unfold cart_valid. intros Hv Hc Hq. rewrite forallb_app, Hv. simpl.
  rewrite cart_valid_line by assumption. reflexivity.
Qed.

(** A string that is the [_id] of a document finds it. *)
Lemma findById_stored {A : Type} (docs : gmap string A) id doc :
  docs !! id = Some doc -> findById docs id = Resolved (id, doc).
Proof. intros H. unfold findById, cast_id. rewrite H. simpl. rewrite H. reflexivity. Qed.

(** /cart/add after its three lookups, for a product id spelled as the
    collection holds it. *)
Lemma cart_add_found caller b s product variant :
  complete b = true ->
  products s !! g_productId b = Some product ->
  find_variant (g_size b) (g_colorName b) product = Some variant ->
  cart_add caller b s
  = let items := cart_of (u_id caller) s in
    let newQuantity := merged_quantity items b in
    if newQuantity >? v_stock variant
    then (s, send 400 (CannotAdd newQuantity (v_stock variant)))
    else save_and_send "Error adding to cart:" (u_id caller)
           match findIndex (same_line (g_productId b) (g_size b) (g_colorName b)) items with
           | Some (i, _) => alter (with_quantity newQuantity) i items
           | None => items ++ [line_of b newQuantity]
           end s.
Proof.
  intros Hc Hp Hv. unfold cart_add, complete in *. apply negb_true_iff in Hc.
  rewrite Hc, (findById_stored _ _ _ Hp), Hv. reflexivity.
Qed.

Lemma complete_with_g_quantity q b :
  complete b = true -> q <> 0 -> complete (with_g_quantity q b) = true.
Proof.
  unfold complete. simpl. intros Hc Hq.
  apply negb_true_iff in Hc. apply negb_true_iff.
  rewrite !orb_false_iff in *.
  destruct Hc as ((((((H1 & H2) & H3) & _) & H5) & H6) & H7).
  repeat split; try assumption. apply Z.eqb_neq, Hq.
Qed.

Lemma gtb_false x y : x <= y -> (x >? y) = false.
Proof. intros H. rewrite Z.gtb_ltb. apply Z.ltb_ge, H. Qed.

Lemma gtb_true x y : y < x -> (x >? y) = true.
Proof. intros H. rewrite Z.gtb_ltb. apply Z.ltb_lt, H. Qed.

(** Every cart the cart routes save has passed the validation of
    [cart.save()], and saving it leaves the products alone. *)
Lemma save_and_send_keeps line user items s :
  products (fst (save_and_send line user items s)) = products s
  /\ (carts_valid s -> carts_valid (fst (save_and_send line user items s))).
Proof.
  unfold save_and_send. destruct (cart_valid items) eqn:Hv; simpl; [|auto].
  split; [reflexivity|]. intros Hs user' items'. simpl.
  destruct (decide (user = user')) as [<-|Hne].
  - rewrite lookup_insert_eq. intros [= <-]. exact Hv.
  - rewrite lookup_insert_ne by exact Hne. apply Hs.
Qed.

(** C7: /cart/add does not keep one line per variant.  The cart of the
    caller holds a line of two units of a variant whose stock is four.
    Adding three more under the id of the product as the store spells
    it is rejected, five being more than the stock.  The same request
    with the id spelled in upper case, which casts to the same ObjectId,
    finds the product, finds no line (the lines are compared with the id
    as text), checks the three units alone against the stock and is
    answered 200: the cart then holds two lines of the same product,
    size and colour, of two and three units. *)
Theorem cart_add_splits_line :
  let s1 := fst (cart_add Example.alice (Example.guest 2) (Example.shop 4)) in
  let again := mkGuestItem Example.P_upper "Shirt" (499 # 1) "shirt.png" "M" "Black" 3 in
  cart_of "u-alice" s1 = [line_of (Example.guest 2) 2]
  /\ cart_add Example.alice (Example.guest 3) s1 = (s1, send 400 (CannotAdd 5 4))
  /\ castObjectId Example.P_upper = Some Example.P
  /\ cart_add Example.alice again s1
     = (save_cart "u-alice" [line_of (Example.guest 2) 2; line_of (Example.guest 3) 3] s1,
        send 200 (CartItems [line_of (Example.guest 2) 2; line_of (Example.guest 3) 3]))
  /\ lines_of Example.P "M" "Black" (cart_of "u-alice" (fst (cart_add Example.alice again s1)))
     = 2%nat.
Proof. vm_compute. repeat split; reflexivity. Qed.

(** X19: /cart/add of an item whose fields are all there, of quantity at
    least [1], of a variant that exists, its product id spelled as the
    store holds it, on a cart whose lines are valid.
    - If the merged quantity (the quantity of the line of the same
      variant key plus the added one, or the added one when there is no
      such line) exceeds the stock, the call is rejected and nothing
      changes.
    - Otherwise, when the key has a line, the first such line gets the
      merged quantity, every other line stays, and the number of lines
      of the key does not change (a cart that holds one line of the key
      still holds one).
    - Otherwise, when the key has no line, a line of the added quantity
      is appended and is the only line of the key.
    - So adding [2] and then [3] of a key the cart did not hold leaves
      one line of [5] when the stock is at least [5], and is rejected at
      the second call, the cart holding the line of [2], when it is
      less. *)
Theorem cart_add_merges :
  (forall caller b s product variant,
      complete b = true ->
      products s !! g_productId b = Some product ->
      find_variant (g_size b) (g_colorName b) product = Some variant ->
      v_stock variant < merged_quantity (cart_of (u_id caller) s) b ->
      cart_add caller b s
      = (s, send 400 (CannotAdd (merged_quantity (cart_of (u_id caller) s) b) (v_stock variant))))
  /\
  (forall caller b s product variant i existing,
      complete b = true ->
      products s !! g_productId b = Some product ->
      find_variant (g_size b) (g_colorName b) product = Some variant ->
      cart_valid (cart_of (u_id caller) s) = true ->
      1 <= g_quantity b ->
      findIndex (same_line (g_productId b) (g_size b) (g_colorName b)) (cart_of (u_id caller) s)
      = Some (i, existing) ->
      ci_quantity existing + g_quantity b <= v_stock variant ->
      let items := cart_of (u_id caller) s in
      let items' := alter (with_quantity (ci_quantity existing + g_quantity b)) i items in
      cart_add caller b s = (save_cart (u_id caller) items' s, send 200 (CartItems items'))
      /\ items' !! i = Some (with_quantity (ci_quantity existing + g_quantity b) existing)
      /\ length items' = length items
      /\ (forall j, j <> i -> items' !! j = items !! j)
      /\ lines_of (g_productId b) (g_size b) (g_colorName b) items'
         = lines_of (g_productId b) (g_size b) (g_colorName b) items)
  /\
  (forall caller b s product variant,
      complete b = true ->
      products s !! g_productId b = Some product ->
      find_variant (g_size b) (g_colorName b) product = Some variant ->
      cart_valid (cart_of (u_id caller) s) = true ->
      1 <= g_quantity b ->
      findIndex (same_line (g_productId b) (g_size b) (g_colorName b)) (cart_of (u_id caller) s)
      = None ->
      g_quantity b <= v_stock variant ->
      let items' := cart_of (u_id caller) s ++ [line_of b (g_quantity b)] in
      cart_add caller b s = (save_cart (u_id caller) items' s, send 200 (CartItems items'))
      /\ lines_of (g_productId b) (g_size b) (g_colorName b) items' = 1%nat)
  /\
  (forall caller b s product variant,
      complete b = true ->
      products s !! g_productId b = Some product ->
      find_variant (g_size b) (g_colorName b) product = Some variant ->
      cart_valid (cart_of (u_id caller) s) = true ->
      findIndex (same_line (g_productId b) (g_size b) (g_colorName b)) (cart_of (u_id caller) s)
      = None ->
      g_quantity b = 2 ->
      2 <= v_stock variant ->
      let items := cart_of (u_id caller) s in
      let s1 := fst (cart_add caller b s) in
      let again := cart_add caller (with_g_quantity 3 b) s1 in
      cart_of (u_id caller) s1 = items ++ [line_of b 2]
      /\ (5 <= v_stock variant ->
          again = (save_cart (u_id caller) (items ++ [line_of b 5]) s1,
                   send 200 (CartItems (items ++ [line_of b 5])))
          /\ lines_of (g_productId b) (g_size b) (g_colorName b) (items ++ [line_of b 5]) = 1%nat)
      /\ (v_stock variant < 5 ->
          again = (s1, send 400 (CannotAdd 5 (v_stock variant))))).
Proof.
  assert (Hinsert : forall caller b s product variant,
      complete b = true ->
      products s !! g_productId b = Some product ->
      find_variant (g_size b) (g_colorName b) product = Some variant ->
      cart_valid (cart_of (u_id caller) s) = true ->
      1 <= g_quantity b ->
      findIndex (same_line (g_productId b) (g_size b) (g_colorName b)) (cart_of (u_id caller) s)
      = None ->
      g_quantity b <= v_stock variant ->
      let items' := cart_of (u_id caller) s ++ [line_of b (g_quantity b)] in
      cart_add caller b s = (save_cart (u_id caller) items' s, send 200 (CartItems items'))
      /\ lines_of (g_productId b) (g_size b) (g_colorName b) items' = 1%nat).
  { intros caller b s product variant Hc Hp Hv Hvalid Hq Hfind Hle items'.
    rewrite (cart_add_found _ _ _ _ _ Hc Hp Hv). unfold merged_quantity. rewrite Hfind. simpl.
    rewrite gtb_false by exact Hle. unfold save_and_send.
    fold items'. subst items'. rewrite cart_valid_push by assumption.
    split; [reflexivity|].
    rewrite lines_of_app, lines_of_absent by exact Hfind.
    unfold lines_of, same_line, line_of. simpl. rewrite !String.eqb_refl. reflexivity. }
  repeat apply conj.
  - intros caller b s product variant Hc Hp Hv Hlt.
    rewrite (cart_add_found _ _ _ _ _ Hc Hp Hv). simpl.
    rewrite gtb_true by exact Hlt. reflexivity.
  - intros caller b s product variant i existing Hc Hp Hv Hvalid Hq Hfind Hle items items'.
    destruct (findIndex_Some _ _ _ _ Hfind) as (Hi & _ & _).
    rewrite (cart_add_found _ _ _ _ _ Hc Hp Hv). unfold merged_quantity. rewrite Hfind. simpl.
    rewrite gtb_false by exact Hle. unfold save_and_send.
    fold items. fold items'. subst items'.
    rewrite cart_valid_alter;
      [|exact Hvalid | pose proof (cart_valid_existing _ _ _ Hvalid Hi); lia].
    split; [reflexivity|].
    split; [rewrite list_lookup_alter_eq; subst items; rewrite Hi; reflexivity|].
    split; [apply length_alter|].
    split; [intros j Hj; apply list_lookup_alter_ne; congruence|].
    apply lines_of_alter.
  - exact Hinsert.
  - intros caller b s product variant Hc Hp Hv Hvalid Hfind Hq2 Hst items s1 again.
    destruct (Hinsert caller b s product variant Hc Hp Hv Hvalid ltac:(lia) Hfind ltac:(lia))
      as [Hadd _].
    rewrite Hq2 in Hadd. fold items in Hadd.
    assert (Hs1 : s1 = save_cart (u_id caller) (items ++ [line_of b 2]) s)
      by (subst s1; rewrite Hadd; reflexivity).
    assert (Hcart : cart_of (u_id caller) s1 = items ++ [line_of b 2])
      by (rewrite Hs1; unfold cart_of; simpl; rewrite lookup_insert_eq; reflexivity).
    assert (Hfind1 : findIndex (same_line (g_productId b) (g_size b) (g_colorName b))
                       (cart_of (u_id caller) s1)
                     = Some (length items, line_of b 2)).
    { rewrite Hcart. apply findIndex_last; [exact Hfind|].
      unfold same_line, line_of. simpl. rewrite !String.eqb_refl. reflexivity. }
    assert (Hc3 : complete (with_g_quantity 3 b) = true)
      by (apply complete_with_g_quantity; [exact Hc | lia]).
    assert (Hagain : again
                     = if 5 >? v_stock variant
                       then (s1, send 400 (CannotAdd 5 (v_stock variant)))
                       else save_and_send "Error adding to cart:" (u_id caller)
                              (items ++ [line_of b 5]) s1).
    { subst again. rewrite (cart_add_found caller _ s1 product variant Hc3);
        [|rewrite Hs1; exact Hp | exact Hv].
      unfold merged_quantity. simpl. rewrite Hfind1. simpl.
      rewrite Hcart, alter_last. reflexivity. }
    split; [exact Hcart|]. split.
    + intros H5. rewrite Hagain, gtb_false by exact H5. unfold save_and_send.
      rewrite (cart_valid_push items b 5) by (try assumption; lia).
      split; [reflexivity|].
      rewrite lines_of_app, lines_of_absent by exact Hfind.
      unfold lines_of, same_line, line_of. simpl. rewrite !String.eqb_refl. reflexivity.
    + intros H5. rewrite Hagain, gtb_true by exact H5. reflexivity.
Qed.

Lemma cart_add_merges_witness :
  let s2 := fst (cart_add Example.alice (Example.guest 2) (Example.shop 5)) in
  cart_add Example.alice (Example.guest 2) (Example.shop 1)
  = (Example.shop 1, send 400 (CannotAdd 2 1))
  /\ cart_of "u-alice" s2 = [line_of (Example.guest 2) 2]
  /\ cart_of "u-alice" (fst (cart_add Example.alice (Example.guest 3) s2))
     = [line_of (Example.guest 2) 5]
  /\ cart_add Example.alice (Example.guest 3)
       (fst (cart_add Example.alice (Example.guest 2) (Example.shop 4)))
     = (fst (cart_add Example.alice (Example.guest 2) (Example.shop 4)),
        send 400 (CannotAdd 5 4)).
Proof.
  intros s2.
  destruct cart_add_merges as (Hreject & Hmerge & Hinsert & Htwice).
  split.
  { apply (Hreject Example.alice (Example.guest 2) (Example.shop 1) (Example.shirt 1)
             (mkVariant "M" "Black" "#000000" 1)); [reflexivity..|vm_compute; reflexivity]. }
  split.
  { subst s2.
    destruct (Hinsert Example.alice (Example.guest 2) (Example.shop 5) (Example.shirt 5)
                (mkVariant "M" "Black" "#000000" 5)) as [-> _];
      [reflexivity | reflexivity | reflexivity | reflexivity
       | vm_compute; discriminate | reflexivity | vm_compute; discriminate |].
    reflexivity. }
  split.
  { destruct (Hmerge Example.alice (Example.guest 3) s2 (Example.shirt 5)
                (mkVariant "M" "Black" "#000000" 5) 0%nat (line_of (Example.guest 2) 2))
      as [-> _];
      [reflexivity | reflexivity | reflexivity | reflexivity
       | vm_compute; discriminate | reflexivity | vm_compute; discriminate |].
    reflexivity. }
  destruct (Htwice Example.alice (Example.guest 2) (Example.shop 4) (Example.shirt 4)
              (mkVariant "M" "Black" "#000000" 4)) as (_ & _ & Hlow);
    [reflexivity | reflexivity | reflexivity | reflexivity | reflexivity | reflexivity
     | vm_compute; discriminate |].
  apply Hlow. reflexivity.
Defined.

(** ** Merging a guest cart *)

Lemma clamp_min q st : (if q >? st then st else q) = Z.min q st.
Proof. rewrite Z.gtb_ltb. destruct (Z.ltb_spec st q); lia. Qed.

Lemma same_line_key pid size colorName item :
  same_line pid size colorName item = true -> lineKey item = itemKey pid size colorName.
Proof.
  unfold same_line, lineKey. rewrite !andb_true_iff, !String.eqb_eq.
  intros [[-> ->] ->]. reflexivity.
Qed.

(** On plain lines, comparing keys is comparing variant keys. *)
Lemma key_eqb_same_line pid size colorName item :
  plain_line item -> no_dash pid = true -> no_dash size = true ->
  String.eqb (lineKey item) (itemKey pid size colorName) = same_line pid size colorName item.
Proof.
  intros [Hp Hs] Hpid Hsize.
  destruct (same_line pid size colorName item) eqn:Hsame.
  - apply String.eqb_eq, same_line_key, Hsame.
  - apply String.eqb_neq. intros Hkey. unfold lineKey in Hkey.
    apply itemKey_inj in Hkey as (H1 & H2 & H3); [|assumption..].
    unfold same_line in Hsame. rewrite H1, H2, H3, !String.eqb_refl in Hsame. discriminate.
Qed.

Lemma key_in_existing pid size colorName (persisted : list CartItem) :
  itemKey pid size colorName ∈ (list_to_set (map lineKey persisted) : gset string)
  <-> exists line, In line persisted /\ lineKey line = itemKey pid size colorName.
Proof.
  rewrite elem_of_list_to_set, list_elem_of_In, in_map_iff.
  split; intros (line & H1 & H2); exists line; auto.
Qed.

Lemma merge_step_skips ps existingItems items g :
  skipped ps g -> merge_step ps existingItems items g = Some items.
Proof.
  unfold skipped, identified, merge_step. intros [H | [H | (oid & product & H & Hv)]].
  - apply negb_false_iff in H. rewrite H. reflexivity.
  - destruct (_ || _); [reflexivity|]. rewrite H. reflexivity.
  - destruct (_ || _); [reflexivity|]. rewrite H.
    destruct Hv as [-> | (variant & -> & ->)]; reflexivity.
Qed.

(** A turn of the loop on an item that is not skipped, its product id
    spelled as the store holds it. *)
Lemma merge_step_live ps existingItems items g st :
  identified g = true ->
  stockOf ps (g_productId g) (g_size g) (g_colorName g) = Some st ->
  st <> 0 ->
  merge_step ps existingItems items g
  = Some (let key := itemKey (g_productId g) (g_size g) (g_colorName g) in
          if bool_decide (key ∈ existingItems)
          then match findIndex (fun item => String.eqb (lineKey item) key) items with
               | None => items
               | Some (i, existing) =>
                   alter (with_quantity (Z.min (ci_quantity existing + g_quantity g) st)) i items
               end
          else items ++ [line_of g (Z.min (g_quantity g) st)]).
Proof.
  unfold identified, stockOf. intros Hid Hst Hne.
  destruct (ps !! g_productId g) as [product|] eqn:Hp; [|discriminate].
  destruct (find_variant _ _ product) as [variant|] eqn:Hv; [|discriminate].
  simpl in Hst. injection Hst as <-.
  unfold merge_step. apply negb_true_iff in Hid.
  rewrite Hid, (findById_stored _ _ _ Hp), Hv.
  apply Z.eqb_neq in Hne. rewrite Hne. simpl.
  destruct (bool_decide _).
  - destruct (findIndex _ items) as [[i existing]|]; [|reflexivity].
    rewrite clamp_min. reflexivity.
  - rewrite clamp_min. reflexivity.
Qed.

Lemma merge_turn_threw ps existingItems guestCart :
  fold_left (merge_turn ps existingItems) guestCart None = None.
Proof. induction guestCart as [|g gs IH]; [reflexivity | exact IH]. Qed.

Lemma merge_items_last ps items front g :
  merge_items ps items (front ++ [g])
  = merge_turn ps (list_to_set (map lineKey items)) (merge_items ps items front) g.
Proof. unfold merge_items. rewrite fold_left_app. reflexivity. Qed.

(** C8: one item fails a whole merge.  A guest cart of an item that can
    be merged and an item whose product id is no ObjectId is answered
    with the 500 of the route and nothing is merged, the first item no
    more than the second; the first item alone is merged.
    /cart/validate-guest, which catches the error item by item, answers
    the same guest cart with both items annotated, the second as out of
    stock.  An item of quantity [0] of a variant the cart does not hold
    fails the merge in the same way: the line pushed for it is refused
    by [cart.save()]. *)
Theorem cart_merge_fails_on_one_item :
  let none := mkGuestItem Example.P "Shirt" (499 # 1) "shirt.png" "L" "Black" 0 in
  cart_merge Example.alice (Some [Example.guest 1; Example.stray 1]) (Example.shop 5)
  = (Example.shop 5, fail 500 (Message "Server Error") "Error merging cart:")
  /\ cart_merge Example.alice (Some [Example.guest 1]) (Example.shop 5)
     = (save_cart "u-alice" [line_of (Example.guest 1) 1] (Example.shop 5),
        send 200 (CartItems [line_of (Example.guest 1) 1]))
  /\ response (validate_guest (Some [Example.guest 1; Example.stray 1]) (Example.shop 5))
     = mkResponse 200
         (ValidatedGuest [mkAnnotated (Example.guest 1) 5 true (Some false) false;
                          out_of_stock (Example.stray 1)]
                         false)
  /\ cart_merge Example.alice (Some [Example.guest 1; none]) (Example.shop 5)
     = (Example.shop 5, fail 500 (Message "Server Error") "Error merging cart:").
Proof. vm_compute. repeat split; reflexivity. Qed.

(** X20: /cart/merge, item by item, for product ids spelled as the store
    holds them.
    - An item the loop passes over (an identifier is missing, or its
      product, its variant or the stock of its variant is not there)
      changes nothing: the merge of a guest cart that contains it is the
      merge of the guest cart without it, state and response, wherever
      the item stands.
    - An item that is not passed over, coming after items that did not
      throw, whose variant key had a line in the persisted cart: the
      first line of that key gets the sum of the two quantities, clamped
      to the stock, and the cart is saved with it.
    - An item that is not passed over, coming after items that did not
      throw, whose variant key had no line in the persisted cart: a line
      of the quantity of the item, clamped to the stock, is appended,
      and the cart is saved with it.
    The keys are compared as joined strings; ids and sizes are taken
    without ["-"]. *)
Theorem cart_merge_item_by_item :
  (forall caller s front back g,
      skipped (products s) g ->
      cart_merge caller (Some (front ++ g :: back)) s
      = cart_merge caller (Some (front ++ back)) s)
  /\
  (forall caller s front items g st i existing,
      merge_items (products s) (cart_of (u_id caller) s) front = Some items ->
      identified g = true ->
      stockOf (products s) (g_productId g) (g_size g) (g_colorName g) = Some st ->
      st <> 0 ->
      plain_guest g -> Forall plain_line items ->
      (exists line, In line (cart_of (u_id caller) s)
                    /\ same_line (g_productId g) (g_size g) (g_colorName g) line = true) ->
      findIndex (same_line (g_productId g) (g_size g) (g_colorName g)) items
      = Some (i, existing) ->
      cart_merge caller (Some (front ++ [g])) s
      = save_and_send "Error merging cart:" (u_id caller)
          (alter (with_quantity (Z.min (ci_quantity existing + g_quantity g) st)) i items) s)
  /\
  (forall caller s front items g st,
      merge_items (products s) (cart_of (u_id caller) s) front = Some items ->
      identified g = true ->
      stockOf (products s) (g_productId g) (g_size g) (g_colorName g) = Some st ->
      st <> 0 ->
      plain_guest g -> Forall plain_line (cart_of (u_id caller) s) ->
      (forall line, In line (cart_of (u_id caller) s) ->
                    same_line (g_productId g) (g_size g) (g_colorName g) line = false) ->
      cart_merge caller (Some (front ++ [g])) s
      = save_and_send "Error merging cart:" (u_id caller)
          (items ++ [line_of g (Z.min (g_quantity g) st)]) s).
Proof.
  split; [|split].
  - intros caller s front back g Hskip. unfold cart_merge, merge_items.
    rewrite !fold_left_app. simpl.
    destruct (fold_left _ front _) as [items|]; simpl; [|reflexivity].
    rewrite merge_step_skips by exact Hskip. reflexivity.
  - intros caller s front items g st i existing Hfront Hid Hst Hne [Hgp Hgs] Hplain Hin Hfind.
    unfold cart_merge. rewrite merge_items_last, Hfront. simpl.
    rewrite (merge_step_live _ _ _ _ _ Hid Hst Hne). simpl.
    rewrite bool_decide_eq_true_2.
    + rewrite (findIndex_ext _ (same_line (g_productId g) (g_size g) (g_colorName g))), Hfind;
        [reflexivity|].
      intros x Hx. apply key_eqb_same_line; [|assumption..].
      rewrite Forall_forall in Hplain. apply Hplain, list_elem_of_In, Hx.
    + apply key_in_existing. destruct Hin as (line & Hl & Hsame).
      exists line. split; [exact Hl | apply same_line_key, Hsame].
  - intros caller s front items g st Hfront Hid Hst Hne [Hgp Hgs] Hplain Hout.
    unfold cart_merge. rewrite merge_items_last, Hfront. simpl.
    rewrite (merge_step_live _ _ _ _ _ Hid Hst Hne). simpl.
    rewrite bool_decide_eq_false_2; [reflexivity|].
    intros Hin. apply key_in_existing in Hin as (line & Hl & Hkey).
    specialize (Hout line Hl).
    rewrite Forall_forall in Hplain. specialize (Hplain line (proj2 (list_elem_of_In _ _) Hl)).
    apply String.eqb_eq in Hkey. rewrite key_eqb_same_line in Hkey by assumption.
    congruence.
Qed.

Lemma cart_merge_item_by_item_witness :
  let stale := mkGuestItem Example.gone "Cap" (99 # 1) "cap.png" "M" "Black" 1 in
  let s := fst (cart_add Example.alice (Example.guest 2) (Example.shop 5)) in
  cart_merge Example.alice (Some [Example.guest 1; stale; Example.guest 2]) (Example.shop 5)
  = cart_merge Example.alice (Some [Example.guest 1; Example.guest 2]) (Example.shop 5)
  /\ cart_merge Example.alice (Some [Example.guest 9]) s
     = (save_cart "u-alice" [line_of (Example.guest 2) 5] s,
        send 200 (CartItems [line_of (Example.guest 2) 5]))
  /\ cart_merge Example.alice (Some [Example.guest 9]) (Example.shop 5)
     = (save_cart "u-alice" [line_of (Example.guest 9) 5] (Example.shop 5),
        send 200 (CartItems [line_of (Example.guest 9) 5])).
Proof.
  intros stale s.
  destruct cart_merge_item_by_item as (Hskip & Hsum & Hpush).
  split.
  { apply (Hskip Example.alice (Example.shop 5) [Example.guest 1] [Example.guest 2] stale).
    right. left. reflexivity. }
  split.
  { etransitivity;
      [apply (Hsum Example.alice s [] [line_of (Example.guest 2) 2] (Example.guest 9) 5 0%nat
                (line_of (Example.guest 2) 2))
      | reflexivity].
    - reflexivity.
    - reflexivity.
    - reflexivity.
    - discriminate.
    - split; reflexivity.
    - repeat constructor.
    - exists (line_of (Example.guest 2) 2). split; [left; reflexivity | reflexivity].
    - reflexivity. }
  etransitivity;
    [apply (Hpush Example.alice (Example.shop 5) [] [] (Example.guest 9) 5) | reflexivity].
  - reflexivity.
  - reflexivity.
  - reflexivity.
  - discriminate.
  - split; reflexivity.
  - constructor.
  - intros line [].
Defined.

(** * Further properties of the routes *)

(** ** The ledger as a composition of per-product updates *)

Lemma bump_cons size colorName d v vs :
  bump size colorName d (v :: vs)
  = if variant_matches size colorName v
    then mkVariant (v_size v) (v_colorName v) (v_colorHex v) (v_stock v + d) :: vs
    else v :: bump size colorName d vs.
Proof.
  unfold bump. simpl. destruct (variant_matches size colorName v); [reflexivity|].
  destruct (inc_first size colorName d vs); reflexivity.
Qed.

Lemma bump_commute s1 c1 d1 s2 c2 d2 vs :
  bump s1 c1 d1 (bump s2 c2 d2 vs) = bump s2 c2 d2 (bump s1 c1 d1 vs).
Proof.
  induction vs as [|v vs IH]; [reflexivity|].
  rewrite (bump_cons s2 c2), (bump_cons s1 c1 d1 v).
  destruct (variant_matches s2 c2 v) eqn:H2, (variant_matches s1 c1 v) eqn:H1;
    rewrite !bump_cons, ?variant_matches_bump, ?H1, ?H2; simpl.
  - do 2 f_equal. lia.
  - reflexivity.
  - reflexivity.
  - f_equal. exact IH.
Qed.

Lemma bump_back size colorName d d' vs :
  d + d' = 0 -> bump size colorName d' (bump size colorName d vs) = vs.
Proof.
  intros Hd. induction vs as [|v vs IH]; [reflexivity|].
  rewrite (bump_cons size colorName d).
  destruct (variant_matches size colorName v) eqn:Hm;
    rewrite bump_cons, ?variant_matches_bump, Hm; simpl.
  - f_equal. destruct v as [sz cn hex st]. simpl. f_equal. lia.
  - f_equal. exact IH.
Qed.

Lemma bump_shape size colorName d vs :
  map (fun v => (v_size v, v_colorName v, v_colorHex v)) (bump size colorName d vs)
  = map (fun v => (v_size v, v_colorName v, v_colorHex v)) vs.
Proof.
  induction vs as [|v vs IH]; [reflexivity|].
  rewrite bump_cons. destruct (variant_matches size colorName v); simpl; [reflexivity|].
  f_equal. exact IH.
Qed.

Lemma updateOne_alter op ps : fst (updateOne op ps) = apply_op ps op.
Proof.
  unfold updateOne, apply_op.
  destruct (ps !! f_id op) as [p|] eqn:Hp; [|symmetry; apply alter_id', Hp].
  rewrite (alter_alt_Some _ _ _ _ Hp). unfold bump_product, bump.
  destruct (inc_first _ _ _ (p_variants p)) as [vs|]; simpl; [reflexivity|].
  symmetry. apply insert_id. rewrite Hp. destruct p. reflexivity.
Qed.

Lemma bulkWrite_fold ops ps : fst (bulkWrite ops ps) = fold_left apply_op ops ps.
Proof.
  revert ps. induction ops as [|op ops IH]; intros ps; [reflexivity|].
  rewrite bulkWrite_cons. simpl. rewrite IH, updateOne_alter. reflexivity.
Qed.

Lemma apply_op_commute ps op1 op2 :
  apply_op (apply_op ps op1) op2 = apply_op (apply_op ps op2) op1.
Proof.
  unfold apply_op. destruct (decide (f_id op2 = f_id op1)) as [He|Hne].
  - rewrite He, !alter_alter_eq. apply alter_ext. intros p _. unfold bump_product. simpl.
    f_equal. apply bump_commute.
  - apply alter_alter_ne, Hne.
Qed.

Lemma apply_op_fold_commute ops ps op :
  apply_op (fold_left apply_op ops ps) op = fold_left apply_op ops (apply_op ps op).
Proof.
  revert ps. induction ops as [|o ops IH]; intros ps; simpl; [reflexivity|].
  rewrite IH, apply_op_commute. reflexivity.
Qed.

Lemma apply_op_back ps op op' :
  f_id op' = f_id op -> f_size op' = f_size op -> f_colorName op' = f_colorName op ->
  inc_stock op + inc_stock op' = 0 ->
  apply_op (apply_op ps op) op' = ps.
Proof.
  intros Hi Hs Hc Hd. unfold apply_op. rewrite Hi, Hs, Hc, alter_alter_eq.
  apply alter_id. intros [name vs] _. unfold bump_product. simpl. f_equal.
  apply bump_back, Hd.
Qed.

Lemma op_matches_apply ps op op' : op_matches (apply_op ps op) op' = op_matches ps op'.
Proof.
  unfold op_matches. rewrite <- updateOne_alter, stockOf_updateOne.
  destruct (targets _ _ _ op), (stockOf ps _ _ _); reflexivity.
Qed.

Lemma bulkWrite_matched ops ps :
  snd (bulkWrite ops ps) = length (List.filter (op_matches ps) ops).
Proof.
  revert ps. induction ops as [|op ops IH]; intros ps; [reflexivity|].
  rewrite bulkWrite_cons. simpl snd. rewrite IH, matched_updateOne, updateOne_alter.
  rewrite (List.filter_ext _ (op_matches ps)) by (intros o; apply op_matches_apply).
  simpl. unfold op_matches at 2.
  destruct (stockOf ps (f_id op) (f_size op) (f_colorName op)); reflexivity.
Qed.

(** X1: the number of documents a batch reports as matched is the number
    of its operations whose variant key exists in the ledger before the
    batch; the others are the ones that change nothing. *)
Theorem bulkWrite_matched_count ops ps :
  snd (bulkWrite ops ps) = length (List.filter (op_matches ps) ops)
  /\ (snd (bulkWrite ops ps) <= length ops)%nat
  /\ (forall op, op_matches ps op = false -> updateOne op ps = (ps, 0%nat)).
Proof.
  split; [apply bulkWrite_matched|]. split.
  - rewrite bulkWrite_matched. apply List.filter_length_le.
  - intros op Hno. unfold op_matches, stockOf, find_variant in Hno. unfold updateOne.
    destruct (ps !! f_id op) as [p|]; [|reflexivity].
    destruct (List.find _ (p_variants p)) eqn:Hf; [discriminate|].
    apply (inc_first_None _ _ (inc_stock op)) in Hf. rewrite Hf. reflexivity.
Qed.

Lemma bulkWrite_matched_count_witness :
  updateOne (mkUpdateOne Example.P "XL" "Black" (-1)) (products (Example.shop 3))
  = (products (Example.shop 3), 0%nat).
Proof.
  apply (proj2 (proj2 (bulkWrite_matched_count [] (products (Example.shop 3))))).
  reflexivity.
Defined.

(** X2: a batch is the composition of its parts, and neither the stock
    it leaves nor the count it reports depends on the order of its
    operations. *)
Theorem bulkWrite_order_irrelevant :
  (forall ops ops' ps,
      bulkWrite (ops ++ ops') ps
      = (fst (bulkWrite ops' (fst (bulkWrite ops ps))),
         (snd (bulkWrite ops ps) + snd (bulkWrite ops' (fst (bulkWrite ops ps))))%nat))
  /\
  (forall ops ops' ps, Permutation ops ops' -> bulkWrite ops ps = bulkWrite ops' ps).
Proof.
  split.
  - intros ops ops' ps. revert ps. induction ops as [|op ops IH]; intros ps.
    + simpl. destruct (bulkWrite ops' ps). reflexivity.
    + simpl app. rewrite !bulkWrite_cons, IH. simpl. f_equal. lia.
  - intros ops ops' ps Hperm.
    apply injective_projections.
    + rewrite !bulkWrite_fold. revert ps.
      induction Hperm as [|x l l' _ IH|x y l|l l' l'' _ IH1 _ IH2]; intros ps; simpl.
      * reflexivity.
      * apply IH.
      * rewrite apply_op_commute. reflexivity.
      * rewrite IH1. apply IH2.
    + rewrite !bulkWrite_matched.
      clear -Hperm. induction Hperm as [|x l l' _ IH|x y l|l l' l'' _ IH1 _ IH2]; simpl.
      * reflexivity.
      * destruct (op_matches ps x); simpl; rewrite IH; reflexivity.
      * destruct (op_matches ps x), (op_matches ps y); reflexivity.
      * rewrite IH1. exact IH2.
Qed.

Lemma bulkWrite_order_irrelevant_witness :
  let ops := [mkUpdateOne Example.P "M" "Black" (-2); mkUpdateOne Example.P "L" "Black" (-1);
              mkUpdateOne Example.gone "M" "Black" (-1)] in
  bulkWrite ops (products (Example.shop 3)) = bulkWrite (rev ops) (products (Example.shop 3)).
Proof.
  intros ops. apply (proj2 bulkWrite_order_irrelevant). apply Permutation_rev.
Defined.

(** X3: a batch creates no product and no variant and removes none: the
    ids, the names and the (size, colour name, colour hex) of the
    variants, in order, are those of before; only stock counts move. *)
Theorem bulkWrite_keeps_shape ops ps :
  product_shape <$> fst (bulkWrite ops ps) = product_shape <$> ps.
Proof.
  rewrite bulkWrite_fold. revert ps. induction ops as [|op ops IH]; intros ps; simpl;
    [reflexivity|].
  rewrite IH. unfold apply_op.
  rewrite (fmap_alter product_shape _ (fun x => x)).
  - apply alter_id. reflexivity.
  - intros p _. unfold product_shape, bump_product. simpl. rewrite bump_shape. reflexivity.
Qed.

Lemma restock_undoes_decrement items ps :
  fst (bulkWrite (map (stock_op 1) items) (fst (bulkWrite (map (stock_op (-1)) items) ps))) = ps.
Proof.
  rewrite !bulkWrite_fold. revert ps.
  induction items as [|item items IH]; intros ps; simpl; [reflexivity|].
  rewrite <- apply_op_fold_commute, IH.
  apply apply_op_back; simpl; try reflexivity. lia.
Qed.

(** X4: paying an order and then deleting it is, for the state, the same
    as deleting it unpaid: Delete's restock undoes Verify's decrement on
    every product, exactly, whatever the order holds. *)
Theorem verify_then_delete_restores gw caller admin now b s order method :
  orders s !! order_id b = Some order ->
  isPaid order = false ->
  isCancelled order = false ->
  expectedSignature gw b = razorpay_signature b ->
  payments_fetch gw (razorpay_payment_id b) = Resolved method ->
  fst (order_delete admin (order_id b) (fst (verify gw caller now b s)))
  = delete_order (order_id b) s
  /\ products (fst (order_delete admin (order_id b) (fst (verify gw caller now b s))))
     = products s.
Proof.
  intros Ho Hp Hc Hs Hf.
  rewrite (verify_accepts _ _ _ _ _ _ _ Ho Hp Hs Hf). simpl fst.
  unfold order_delete. simpl. rewrite lookup_insert_eq. simpl. rewrite Hc. simpl.
  rewrite restock_undoes_decrement.
  unfold delete_order, set_products. simpl. rewrite delete_insert_eq.
  split; reflexivity.
Qed.

Lemma verify_then_delete_restores_witness :
  let s := fst (create_order Example.gw Example.alice 1 "o1" (Example.checkout 2) (Example.shop 3)) in
  products (fst (order_delete Example.root "o1"
                   (fst (verify Example.gw Example.alice 2 (Example.pay "o1") s))))
  = products (Example.shop 3).
Proof.
  intros s.
  exact (proj2 (verify_then_delete_restores Example.gw Example.alice Example.root 2
                  (Example.pay "o1") s
                  (mkOrder "u-alice" [Example.item 2] Example.home
                           (mkPaymentDetails None (Some "order_1") None None)
                           998 false None false None false)
                  (Some "upi") eq_refl eq_refl eq_refl eq_refl eq_refl)).
Defined.

(** ** The stock check of Create and Repay *)

Lemma stock_check_cons find mv short item rest :
  passes find item ->
  stock_check find mv short (item :: rest) = stock_check find mv short rest.
Proof.
  intros (oid & product & variant & Hf & Hv & Hq). simpl. rewrite Hf, Hv.
  destruct (Z.ltb_spec (v_stock variant) (oi_quantity item)); [lia|reflexivity].
Qed.

Lemma stock_check_fails find mv short item rest :
  ~ passes find item ->
  (find (oi_product item) = Throws /\ stock_check find mv short (item :: rest) = Threw)
  \/ (find (oi_product item) <> Throws
      /\ exists r, stock_check find mv short (item :: rest) = Refused r
                   /\ console r = []
                   /\ (status (response r) = 404 \/ status (response r) = 400)).
Proof.
  unfold passes. intros Hno. simpl.
  destruct (find (oi_product item)) as [| |[oid product]] eqn:Hf.
  - left. auto.
  - right. split; [discriminate|]. eexists. split; [reflexivity|]. simpl. auto.
  - right. split; [discriminate|].
    destruct (find_variant _ _ product) as [variant|] eqn:Hv;
      [|eexists; split; [reflexivity|]; simpl; auto].
    destruct (Z.ltb_spec (v_stock variant) (oi_quantity item)).
    + eexists. split; [reflexivity|]. simpl. auto.
    + exfalso. apply Hno. exists oid, product, variant. auto.
Qed.

Lemma passes_dec find item : passes find item \/ ~ passes find item.
Proof.
  unfold passes.
  destruct (find (oi_product item)) as [| |[oid product]] eqn:Hf;
    try (right; intros (o & p & v & H & _); discriminate).
  destruct (find_variant (oi_size item) (oi_colorName item) product) as [variant|] eqn:Hv.
  - destruct (Z_le_gt_dec (oi_quantity item) (v_stock variant)).
    + left. exists oid, product, variant. auto.
    + right. intros (o & p & v & [= <- <-] & Hv' & Hq). rewrite Hv in Hv'.
      injection Hv' as <-. lia.
  - right. intros (o & p & v & [= <- <-] & Hv' & _). congruence.
Qed.

Lemma stock_check_front find mv short front rest :
  Forall (passes find) front ->
  stock_check find mv short (front ++ rest) = stock_check find mv short rest.
Proof.
  intros H. induction H as [|item front Hi _ IH]; [reflexivity|].
  simpl app. rewrite stock_check_cons by exact Hi. exact IH.
Qed.

Lemma stock_check_Passed find mv short items :
  stock_check find mv short items = Passed <-> Forall (passes find) items.
Proof.
  split.
  - induction items as [|item rest IH]; intros H; [constructor|].
    destruct (passes_dec find item) as [Hi | Hno].
    + rewrite stock_check_cons in H by exact Hi. constructor; auto.
    + destruct (stock_check_fails find mv short item rest Hno)
        as [[_ Ht] | (_ & r & Hr & _)]; congruence.
  - intros H. rewrite <- (app_nil_r items), stock_check_front by exact H. reflexivity.
Qed.

Lemma stock_check_Refused find mv short items r :
  stock_check find mv short items = Refused r ->
  console r = [] /\ (status (response r) = 404 \/ status (response r) = 400).
Proof.
  induction items as [|item rest IH]; intros H; [discriminate|].
  destruct (passes_dec find item) as [Hi | Hno].
  - rewrite stock_check_cons in H by exact Hi. apply IH, H.
  - destruct (stock_check_fails find mv short item rest Hno)
      as [[_ Ht] | (_ & r' & Hr & Hc & Hs)]; [congruence|].
    assert (r = r') as -> by congruence. auto.
Qed.

Lemma stock_check_Threw find mv short items :
  stock_check find mv short items = Threw <->
  exists front item rest,
    items = front ++ item :: rest
    /\ Forall (passes find) front /\ find (oi_product item) = Throws.
Proof.
  split.
  - induction items as [|item rest IH]; intros H; [discriminate|].
    destruct (passes_dec find item) as [Hi | Hno].
    + rewrite stock_check_cons in H by exact Hi.
      destruct (IH H) as (front & bad & back & -> & Hfront & Hbad).
      exists (item :: front), bad, back. split; [reflexivity|]. split; [|exact Hbad].
      constructor; assumption.
    + destruct (stock_check_fails find mv short item rest Hno)
        as [[Ht _] | (_ & r & Hr & _)]; [|congruence].
      exists [], item, rest. split; [reflexivity|]. split; [constructor | exact Ht].
  - intros (front & item & rest & -> & Hfront & Hbad).
    rewrite stock_check_front by exact Hfront. simpl. rewrite Hbad. reflexivity.
Qed.

(** The lookup of Repay reads the ledger by the stored id, and does not
    throw. *)
Lemma passes_stored ps item : passes (findStored ps) item <-> in_stock ps item.
Proof.
  unfold passes, in_stock, stockOf, findStored. split.
  - intros (oid & product & variant & Hf & Hv & Hq).
    destruct (ps !! oi_product item) as [p|]; [|discriminate].
    injection Hf as _ ->. rewrite Hv. simpl. eauto.
  - intros (st & Hst & Hq).
    destruct (ps !! oi_product item) as [p|]; [|discriminate].
    destruct (find_variant _ _ p) as [v|] eqn:Hv; [|discriminate].
    simpl in Hst. injection Hst as <-. exists (oi_product item), p, v. auto.
Qed.

Lemma stock_check_stored ps mv short items :
  (stock_check (findStored ps) mv short items = Passed <-> Forall (in_stock ps) items)
  /\ stock_check (findStored ps) mv short items <> Threw.
Proof.
  split.
  - rewrite stock_check_Passed. apply Forall_iff. intros item. apply passes_stored.
  - intros H. apply stock_check_Threw in H as (front & item & rest & _ & _ & Hf).
    unfold findStored in Hf. destruct (ps !! oi_product item); discriminate.
Qed.

Lemma findById_Throws {A : Type} (docs : gmap string A) id :
  findById docs id = Throws <-> docs !! id = None /\ castObjectId id = None.
Proof.
  unfold findById, cast_id. split.
  - destruct (docs !! id) as [doc|] eqn:Hd; simpl; [rewrite Hd; discriminate|].
    destruct (castObjectId id) as [oid|]; [|auto].
    destruct (docs !! oid); discriminate.
  - intros [-> ->]. reflexivity.
Qed.

(** X5: the stock check loop of Create and Repay.  It passes exactly
    when every item passes, that is, its product is found, the product
    has its variant and the variant holds at least the quantity of the
    item (so it passes on an empty list); the items before the first
    one that fails do not matter.  When that item is refused, the
    answer is a 404 or a 400 that writes nothing to the console.  The
    loop throws exactly when the lookup of that item throws: in Create,
    when its id, not the id of a product, does not cast to an ObjectId;
    in Repay, whose ids are those of the stored order, never: there
    an item passes exactly when the ledger holds its variant with
    enough stock. *)
Theorem stock_check_passes_iff :
  (forall find mv short items,
      stock_check find mv short items = Passed <-> Forall (passes find) items)
  /\
  (forall find mv short front rest,
      Forall (passes find) front ->
      stock_check find mv short (front ++ rest) = stock_check find mv short rest)
  /\
  (forall find mv short items r,
      stock_check find mv short items = Refused r ->
      console r = [] /\ (status (response r) = 404 \/ status (response r) = 400))
  /\
  (forall find mv short items,
      stock_check find mv short items = Threw <->
      exists front item rest,
        items = front ++ item :: rest
        /\ Forall (passes find) front /\ find (oi_product item) = Throws)
  /\
  (forall (ps : gmap string Product) id,
      findById ps id = Throws <-> ps !! id = None /\ castObjectId id = None)
  /\
  (forall ps mv short items,
      (stock_check (findStored ps) mv short items = Passed <-> Forall (in_stock ps) items)
      /\ stock_check (findStored ps) mv short items <> Threw).
Proof.
  split; [exact stock_check_Passed|]. split; [exact stock_check_front|].
  split; [exact stock_check_Refused|]. split; [exact stock_check_Threw|].
  split; [intros ps id; apply findById_Throws | exact stock_check_stored].
Qed.

Lemma stock_check_passes_iff_witness :
  let mv := fun item => VariantNotFoundFor (oi_name item) in
  let short := fun item (_ : Z) => CannotRepay (oi_name item) (oi_size item) (oi_colorName item) in
  let ps := products (Example.shop 3) in
  let bad := mkOrderItem "Cap" 1 (99 # 1) "cap.png" "M" "Black" "zzz" in
  stock_check (findById ps) mv short [Example.item 2; Example.item 3] = Passed
  /\ stock_check (findById ps) mv short ([Example.item 2; Example.item 3] ++ [Example.item 4])
     = Refused (send 400 (CannotRepay "Shirt" "M" "Black"))
  /\ console (send 400 (CannotRepay "Shirt" "M" "Black")) = []
  /\ stock_check (findById ps) mv short ([Example.item 2] ++ bad :: [Example.item 4]) = Threw.
Proof.
  intros mv short ps bad.
  destruct stock_check_passes_iff as (Hiff & Hfront & Hfail & Hthrow & _).
  assert (H2 : passes (findById ps) (Example.item 2)).
  { exists Example.P, (Example.shirt 3), (mkVariant "M" "Black" "#000000" 3).
    split; [reflexivity|]. split; [reflexivity | vm_compute; discriminate]. }
  assert (Hin : Forall (passes (findById ps)) [Example.item 2; Example.item 3]).
  { constructor; [exact H2|]. constructor; [|constructor].
    exists Example.P, (Example.shirt 3), (mkVariant "M" "Black" "#000000" 3).
    split; [reflexivity|]. split; [reflexivity | vm_compute; discriminate]. }
  split; [apply Hiff, Hin|].
  split; [rewrite Hfront by exact Hin; reflexivity|].
  split; [apply (Hfail (findById ps) mv short [Example.item 4]); reflexivity|].
  apply Hthrow. exists [Example.item 2], bad, [Example.item 4].
  split; [reflexivity|]. split; [constructor; [exact H2 | constructor] | reflexivity].
Defined.

(** ** Create and Repay *)

Lemma findById_Resolved {A : Type} (docs : gmap string A) id oid doc :
  findById docs id = Resolved (oid, doc) -> cast_id docs id = Some oid /\ docs !! oid = Some doc.
Proof.
  unfold findById. destruct (cast_id docs id) as [o|]; [|discriminate].
  destruct (docs !! o) as [d|] eqn:Hd; [|discriminate].
  intros [= <- <-]. auto.
Qed.

Lemma cast_item_valid ps item item' :
  cast_item ps item = Some item' -> orderItem_valid item' = orderItem_valid item.
Proof.
  unfold cast_item. destruct (cast_id ps (oi_product item)); [|discriminate].
  intros [= <-]. reflexivity.
Qed.

Lemma cast_items_valid ps items items' :
  mapM (cast_item ps) items = Some items' ->
  forallb orderItem_valid items' = forallb orderItem_valid items.
Proof.
  rewrite mapM_Some. intros H.
  induction H as [|item item' items items' Hi _ IH]; [reflexivity|].
  simpl. rewrite (cast_item_valid _ _ _ Hi), IH. reflexivity.
Qed.

Lemma passes_cast_items ps items :
  Forall (passes (findById ps)) items -> is_Some (mapM (cast_item ps) items).
Proof.
  intros H. apply mapM_is_Some. eapply Forall_impl; [exact H|].
  intros item (oid & product & variant & Hf & _). simpl.
  apply findById_Resolved in Hf as [Hc _]. unfold cast_item. rewrite Hc. eauto.
Qed.

Lemma cast_items_stored ps items :
  Forall (fun item => is_Some (ps !! oi_product item)) items ->
  mapM (cast_item ps) items = Some items.
Proof.
  intros H. apply mapM_Some. induction H as [|item items [p Hp] _ IH]; constructor; [|exact IH].
  unfold cast_item, cast_id. rewrite Hp. destruct item. reflexivity.
Qed.

(** X6: Create.  It answers 201 exactly when every item passes the stock
    check, the gateway returns an order, and the document passes the
    validation of [save()]: the name, image, size and colour name of
    every item and the six fields of the address are there.  It then
    stores, under the new id, an unpaid, uncancelled, undelivered order
    of the caller that carries the gateway's order id, the product id of
    every item cast to its ObjectId (an id spelled as the store holds
    it is stored as it is).  Any other answer leaves the state as it
    was, also the 500 of a document that fails the validation after the
    gateway has created its order.  In no case does it touch a product
    or a cart: an accepted checkout reserves no stock. *)
Theorem create_order_outcome gw caller now newId b s :
  (status (response (snd (create_order gw caller now newId b s))) = 201 <->
   Forall (passes (findById (products s))) (cb_orderItems b)
   /\ (exists g, orders_create gw (minor_units (cb_totalPrice b)) now = Resolved g)
   /\ forallb orderItem_valid (cb_orderItems b) = true
   /\ shippingAddress_valid (cb_shippingAddress b) = true)
  /\ (forall g,
        Forall (passes (findById (products s))) (cb_orderItems b) ->
        orders_create gw (minor_units (cb_totalPrice b)) now = Resolved g ->
        forallb orderItem_valid (cb_orderItems b) = true ->
        shippingAddress_valid (cb_shippingAddress b) = true ->
        exists items,
          mapM (cast_item (products s)) (cb_orderItems b) = Some items
          /\ create_order gw caller now newId b s
             = (save_order newId (new_order caller (with_items items b) g) s,
                send 201 (OrderCreated newId g)))
  /\ (Forall (fun item => is_Some (products s !! oi_product item)) (cb_orderItems b) ->
      mapM (cast_item (products s)) (cb_orderItems b) = Some (cb_orderItems b))
  /\ (forall g,
        Forall (passes (findById (products s))) (cb_orderItems b) ->
        orders_create gw (minor_units (cb_totalPrice b)) now = Resolved g ->
        forallb orderItem_valid (cb_orderItems b) && shippingAddress_valid (cb_shippingAddress b)
        = false ->
        create_order gw caller now newId b s
        = (s, fail 500 (Message "Server error") "Error creating order:"))
  /\ (status (response (snd (create_order gw caller now newId b s))) <> 201 ->
      fst (create_order gw caller now newId b s) = s)
  /\ products (fst (create_order gw caller now newId b s)) = products s
  /\ carts (fst (create_order gw caller now newId b s)) = carts s.
Proof.
  assert (Hgood : forall g,
        Forall (passes (findById (products s))) (cb_orderItems b) ->
        orders_create gw (minor_units (cb_totalPrice b)) now = Resolved g ->
        exists items,
          mapM (cast_item (products s)) (cb_orderItems b) = Some items
          /\ create_order gw caller now newId b s
             = if forallb orderItem_valid (cb_orderItems b)
                  && shippingAddress_valid (cb_shippingAddress b)
               then (save_order newId (new_order caller (with_items items b) g) s,
                     send 201 (OrderCreated newId g))
               else (s, fail 500 (Message "Server error") "Error creating order:")).
  { intros g Hin Hg. destruct (passes_cast_items _ _ Hin) as [items Hitems].
    exists items. split; [exact Hitems|].
    unfold create_order. rewrite (proj2 (stock_check_Passed _ _ _ _) Hin), Hg, Hitems.
    unfold order_valid. simpl. rewrite (cast_items_valid _ _ _ Hitems). reflexivity. }
  split; [|split; [|split; [|split; [|split; [|split]]]]].
  - split.
    + unfold create_order.
      destruct (stock_check _ _ _ (cb_orderItems b)) as [|r|] eqn:Hc.
      * apply stock_check_Passed in Hc.
        destruct (orders_create gw _ now) as [| |g] eqn:Hg; simpl; try discriminate.
        destruct (mapM _ (cb_orderItems b)) as [items|] eqn:Hitems; simpl; [|discriminate].
        unfold order_valid. simpl. rewrite (cast_items_valid _ _ _ Hitems).
        destruct (forallb orderItem_valid (cb_orderItems b)); simpl; [|discriminate].
        destruct (shippingAddress_valid (cb_shippingAddress b)); simpl; [|discriminate].
        intros _. split; [exact Hc|]. split; [eexists; reflexivity|]. auto.
      * destruct (stock_check_Refused _ _ _ _ _ Hc) as [_ Hst]. simpl.
        intros H. exfalso. destruct Hst; lia.
      * simpl. discriminate.
    + intros (Hin & [g Hg] & Hv & Ha).
      destruct (Hgood g Hin Hg) as (items & _ & ->). rewrite Hv, Ha. reflexivity.
  - intros g Hin Hg Hv Ha. destruct (Hgood g Hin Hg) as (items & Hitems & ->).
    exists items. rewrite Hv, Ha. auto.
  - apply cast_items_stored.
  - intros g Hin Hg Hbad. destruct (Hgood g Hin Hg) as (items & _ & ->).
    rewrite Hbad. reflexivity.
  - unfold create_order.
    destruct (stock_check _ _ _ (cb_orderItems b)); [|reflexivity..].
    destruct (orders_create gw _ now); [reflexivity..|].
    destruct (mapM _ (cb_orderItems b)); [|reflexivity].
    destruct (order_valid _); simpl; [|reflexivity]. intros H. contradiction.
  - unfold create_order.
    destruct (stock_check _ _ _ (cb_orderItems b)); [|reflexivity..].
    destruct (orders_create gw _ now); [reflexivity..|].
    destruct (mapM _ (cb_orderItems b)); [|reflexivity].
    destruct (order_valid _); reflexivity.
  - unfold create_order.
    destruct (stock_check _ _ _ (cb_orderItems b)); [|reflexivity..].
    destruct (orders_create gw _ now); [reflexivity..|].
    destruct (mapM _ (cb_orderItems b)); [|reflexivity].
    destruct (order_valid _); reflexivity.
Qed.

Lemma create_order_outcome_witness :
  let unnamed := mkCreateBody [mkOrderItem "Shirt" 2 (499 # 1) "" "M" "Black" Example.P]
                              Example.home 998 in
  create_order Example.gw Example.alice 1 "o1" (Example.checkout 2) (Example.shop 3)
  = (save_order "o1"
       (new_order Example.alice (Example.checkout 2) (mkGatewayOrder "order_1" 99800 "INR"))
       (Example.shop 3),
     send 201 (OrderCreated "o1" (mkGatewayOrder "order_1" 99800 "INR")))
  /\ fst (create_order Example.gw Example.alice 1 "o1" (Example.checkout 4) (Example.shop 3))
     = Example.shop 3
  /\ create_order Example.gw Example.alice 1 "o1" unnamed (Example.shop 3)
     = (Example.shop 3, fail 500 (Message "Server error") "Error creating order:").
Proof.
  intros unnamed.
  assert (H2 : forall img,
             Forall (passes (findById (products (Example.shop 3))))
                    [mkOrderItem "Shirt" 2 (499 # 1) img "M" "Black" Example.P]).
  { intros img. constructor; [|constructor].
    exists Example.P, (Example.shirt 3), (mkVariant "M" "Black" "#000000" 3).
    split; [reflexivity|]. split; [reflexivity | vm_compute; discriminate]. }
  split; [|split].
  - destruct (proj1 (proj2 (create_order_outcome Example.gw Example.alice 1 "o1"
                              (Example.checkout 2) (Example.shop 3)))
                (mkGatewayOrder "order_1" 99800 "INR") (H2 "shirt.png") eq_refl eq_refl eq_refl)
      as (items & Hitems & ->).
    injection Hitems as <-. reflexivity.
  - apply (proj1 (proj2 (proj2 (proj2 (proj2 (create_order_outcome Example.gw Example.alice 1 "o1"
                                  (Example.checkout 4) (Example.shop 3))))))).
    vm_compute. discriminate.
  - apply (proj1 (proj2 (proj2 (proj2 (create_order_outcome Example.gw Example.alice 1 "o1"
                                  unnamed (Example.shop 3)))))
             (mkGatewayOrder "order_1" 99800 "INR") (H2 "") eq_refl eq_refl).
Defined.



(** ** The life of an order *)

(** X8: Verify does not look at [isCancelled].  An order its owner has
    cancelled is still verified by a valid payment: it ends up both
    cancelled and paid, every variant loses the quantity ordered, and
    since Delete restocks only orders that are paid and not cancelled,
    deleting it afterwards gives nothing back. *)
Theorem cancelled_order_can_be_paid gw caller admin now b s order method :
  orders s !! order_id b = Some order ->
  o_user order = u_id caller ->
  isPaid order = false ->
  expectedSignature gw b = razorpay_signature b ->
  payments_fetch gw (razorpay_payment_id b) = Resolved method ->
  let s1 := fst (cancel caller (order_id b) s) in
  let s2 := fst (verify gw caller now b s1) in
  let s3 := fst (order_delete admin (order_id b) s2) in
  snd (verify gw caller now b s1)
  = send 200 (PaymentVerified (order_id b) (razorpay_payment_id b))
  /\ (exists o, orders s2 !! order_id b = Some o
                /\ isPaid o = true /\ isCancelled o = true)
  /\ products s3 = products s2
  /\ orders s3 !! order_id b = None
  /\ forall pid size colorName,
      stockOf (products s3) pid size colorName
      = option_map (fun n => n - ordered_quantity pid size colorName (orderItems order))
                   (stockOf (products s) pid size colorName).
Proof.
  intros Ho Hu Hp Hs Hf s1 s2 s3.
  assert (H1 : s1 = save_order (order_id b) (cancelled_order order) s).
  { subst s1. unfold cancel. rewrite Ho, Hp.
    assert (String.eqb (o_user order) (u_id caller) = true) as ->
      by (apply String.eqb_eq, Hu).
    reflexivity. }
  assert (Ho1 : orders s1 !! order_id b = Some (cancelled_order order))
    by (rewrite H1; simpl; apply lookup_insert_eq).
  pose proof (verify_accepts gw caller now b s1 _ method Ho1 Hp Hs Hf) as Hv.
  assert (Ho2 : orders s2 !! order_id b
                = Some (paid_order now method b (cancelled_order order)))
    by (subst s2; rewrite Hv; simpl; apply lookup_insert_eq).
  assert (H3 : s3 = delete_order (order_id b) s2).
  { subst s3. unfold order_delete. rewrite Ho2. reflexivity. }
  split; [rewrite Hv; reflexivity|].
  split; [eexists; split; [exact Ho2 | split; reflexivity]|].
  split; [rewrite H3; reflexivity|].
  split; [rewrite H3; simpl; apply lookup_delete_eq|].
  intros pid size colorName. rewrite H3. simpl. subst s2. rewrite Hv. simpl.
  rewrite stockOf_bulkWrite, total_inc_stock_op, H1. simpl.
  destruct (stockOf (products s) pid size colorName); simpl; f_equal; lia.
Qed.

Lemma cancelled_order_can_be_paid_witness :
  let s := fst (create_order Example.gw Example.alice 1 "o1" (Example.checkout 2) (Example.shop 3)) in
  let s1 := fst (cancel Example.alice "o1" s) in
  let s2 := fst (verify Example.gw Example.alice 2 (Example.pay "o1") s1) in
  stockOf (products (fst (order_delete Example.root "o1" s2))) Example.P "M" "Black" = Some 1.
Proof.
  intros s s1 s2.
  destruct (cancelled_order_can_be_paid Example.gw Example.alice Example.root 2
              (Example.pay "o1") s
              (new_order Example.alice (Example.checkout 2) (mkGatewayOrder "order_1" 99800 "INR"))
              (Some "upi") eq_refl eq_refl eq_refl eq_refl eq_refl)
    as (_ & _ & _ & _ & H).
  subst s2 s1. rewrite H. reflexivity.
Defined.

Lemma orders_consistent_save id o s :
  orders_consistent s -> order_consistent o -> orders_consistent (save_order id o s).
Proof.
  intros Hs Ho id' o'. simpl. destruct (decide (id = id')) as [<-|Hne].
  - rewrite lookup_insert_eq. intros [= <-]. exact Ho.
  - rewrite lookup_insert_ne by exact Hne. apply Hs.
Qed.

Lemma orders_consistent_delete id s :
  orders_consistent s -> orders_consistent (delete_order id s).
Proof.
  intros Hs id' o'. simpl. destruct (decide (id = id')) as [<-|Hne].
  - rewrite lookup_delete_eq. discriminate.
  - rewrite lookup_delete_ne by exact Hne. apply Hs.
Qed.

(** X9: every order route keeps the flags of the stored orders in
    agreement with their timestamps and payment records: an order is
    paid exactly when it has a [paidAt], a paid order has a payment id
    and a signature, an order is delivered exactly when it has a
    [deliveredAt], and every order has a gateway order id. *)
Theorem order_routes_keep_orders_consistent s :
  orders_consistent s ->
  (forall gw caller now newId b,
      orders_consistent (fst (create_order gw caller now newId b s)))
  /\ (forall gw caller now b, orders_consistent (fst (verify gw caller now b s)))
  /\ (forall gw caller now id, orders_consistent (fst (repay gw caller now id s)))
  /\ (forall caller id, orders_consistent (fst (cancel caller id s)))
  /\ (forall caller now id, orders_consistent (fst (deliver caller now id s)))
  /\ (forall caller id, orders_consistent (fst (order_delete caller id s))).
Proof.
  intros Hs. repeat apply conj.
  - intros gw caller now newId b. unfold create_order.
    destruct (stock_check _ _ _ _); [|exact Hs..].
    destruct (orders_create gw _ now) as [| |g]; simpl; try exact Hs.
    destruct (mapM _ _) as [items|]; [|exact Hs].
    destruct (order_valid _); [|exact Hs].
    apply orders_consistent_save; [exact Hs|].
    unfold order_consistent. simpl.
    repeat split; try discriminate; try (intros [x Hx]; discriminate); eauto.
  - intros gw caller now b. unfold verify.
    destruct (orders s !! order_id b) as [order|] eqn:Ho; [|exact Hs].
    destruct (isPaid order); [exact Hs|].
    destruct (negb _); [exact Hs|].
    destruct (payments_fetch gw _) as [| |method]; simpl; try exact Hs.
    apply orders_consistent_save.
    + intros id' o'. simpl. apply Hs.
    + destruct (Hs _ _ Ho) as (_ & _ & Hd & _).
      unfold order_consistent. simpl. repeat split; eauto; apply Hd.
  - intros gw caller now id. unfold repay.
    destruct (orders s !! id) as [order|] eqn:Ho; [|exact Hs].
    destruct (negb _); [exact Hs|].
    destruct (isPaid order) eqn:Hp; [exact Hs|].
    destruct (isCancelled order); [exact Hs|].
    destruct (stock_check _ _ _ _); [|exact Hs..].
    destruct (orders_create gw _ now) as [| |g]; simpl; try exact Hs.
    apply orders_consistent_save; [exact Hs|].
    destruct (Hs _ _ Ho) as (Hpaid & Hpd & Hd & _).
    unfold order_consistent. simpl. rewrite Hp in *.
    repeat split; eauto; try apply Hpaid; try apply Hd; try discriminate.
  - intros caller id. unfold cancel.
    destruct (orders s !! id) as [order|] eqn:Ho; [|exact Hs].
    destruct (negb _); [exact Hs|].
    destruct (isPaid order) eqn:Hp; [exact Hs|].
    apply orders_consistent_save; [exact Hs|].
    destruct (Hs _ _ Ho) as (Hpaid & Hpd & Hd & Hg).
    unfold order_consistent, cancelled_order. simpl. rewrite Hp in *.
    repeat split; eauto; try apply Hpaid; try apply Hd; try discriminate.
  - intros caller now id. unfold deliver.
    destruct (orders s !! id) as [order|] eqn:Ho; [|exact Hs].
    apply orders_consistent_save; [exact Hs|].
    destruct (Hs _ _ Ho) as (Hpaid & Hpd & Hd & Hg).
    unfold order_consistent, delivered_order. simpl.
    repeat split; eauto; try apply Hpaid; try apply Hpd; assumption.
  - intros caller id. unfold order_delete.
    destruct (orders s !! id) as [order|]; [|exact Hs].
    destruct (_ && _); simpl; apply orders_consistent_delete; [|exact Hs].
    intros id' o'. simpl. apply Hs.
Qed.

Lemma order_routes_keep_orders_consistent_witness :
  orders_consistent Example.oversold.
Proof.
  assert (H0 : orders_consistent (Example.shop 3))
    by (intros id o H; simpl in H; rewrite lookup_empty in H; discriminate).
  pose proof (proj1 (order_routes_keep_orders_consistent _ H0)
                Example.gw Example.alice 1 "o1" (Example.checkout 2)) as H1.
  pose proof (proj1 (order_routes_keep_orders_consistent _ H1)
                Example.gw Example.bob 2 "o2" (Example.checkout 2)) as H2.
  pose proof (proj1 (proj2 (order_routes_keep_orders_consistent _ H2))
                Example.gw Example.alice 3 (Example.pay "o1")) as H3.
  exact (proj1 (proj2 (order_routes_keep_orders_consistent _ H3))
           Example.gw Example.bob 4 (Example.pay "o2")).
Defined.






(** ** The other cart routes *)

Lemma save_and_send_frame caller line items s :
  cart_frame caller s (fst (save_and_send line (u_id caller) items s)).
Proof.
  destruct (save_and_send_keeps line (u_id caller) items s) as [Hp Hv].
  unfold cart_frame. split; [exact Hp|]. split; [|split; [|exact Hv]].
  - unfold save_and_send. destruct (cart_valid items); reflexivity.
  - intros user Hne. unfold save_and_send. destruct (cart_valid items); simpl; [|reflexivity].
    apply lookup_insert_ne. congruence.
Qed.

Lemma cart_frame_refl caller s : cart_frame caller s s.
Proof. unfold cart_frame. auto. Qed.

(** X11: a cart route changes the cart of its caller and nothing else:
    no product (so no stock), no order, no cart of another user; and if
    every stored cart was one [cart.save()] accepts (lines of quantity
    at least [1], with their required fields), so is every cart
    afterwards.  Clear leaves the caller's cart empty and creates no
    cart for a user who has none. *)
Theorem cart_routes_frame caller s :
  (forall b, cart_frame caller s (fst (cart_add caller b s)))
  /\ (forall b, cart_frame caller s (fst (cart_update caller b s)))
  /\ (forall p sz c, cart_frame caller s (fst (cart_remove caller p sz c s)))
  /\ (forall g, cart_frame caller s (fst (cart_merge caller g s)))
  /\ cart_frame caller s (fst (cart_clear caller s))
  /\ cart_of (u_id caller) (fst (cart_clear caller s)) = []
  /\ (carts s !! u_id caller = None -> fst (cart_clear caller s) = s).
Proof.
  split; [|split; [|split; [|split; [|split; [|split]]]]].
  - intros b. unfold cart_add.
    destruct (_ || _); [apply cart_frame_refl|].
    destruct (findById (products s) _) as [| |[oid product]]; [apply cart_frame_refl..|].
    destruct (find_variant _ _ product) as [variant|]; [|apply cart_frame_refl].
    destruct (_ >? _); [apply cart_frame_refl|]. apply save_and_send_frame.
  - intros b. unfold cart_update.
    destruct (_ || _); [apply cart_frame_refl|].
    destruct (_ <? _); [apply cart_frame_refl|].
    destruct (products s !! _) as [product|]; [|apply cart_frame_refl].
    destruct (find_variant _ _ product) as [variant|]; [|apply cart_frame_refl].
    destruct (_ >? _); [apply cart_frame_refl|].
    destruct (carts s !! _) as [items|]; [|apply cart_frame_refl].
    destruct (findIndex _ items) as [[i x]|]; [|apply cart_frame_refl].
    apply save_and_send_frame.
  - intros p sz c. unfold cart_remove.
    destruct (_ || _); [apply cart_frame_refl|].
    destruct (carts s !! _) as [items|]; [|apply cart_frame_refl].
    destruct (_ =? _)%nat; [apply cart_frame_refl|]. apply save_and_send_frame.
  - intros [g|]; [|apply cart_frame_refl]. unfold cart_merge.
    destruct (merge_items _ _ g); [apply save_and_send_frame | apply cart_frame_refl].
  - unfold cart_clear. destruct (carts s !! u_id caller) as [items|] eqn:Hc;
      [|apply cart_frame_refl].
    unfold cart_frame. simpl. split; [reflexivity|]. split; [reflexivity|]. split.
    + intros user Hne. apply lookup_insert_ne. congruence.
    + intros Hs user items'. simpl. destruct (decide (u_id caller = user)) as [<-|Hne].
      * rewrite lookup_insert_eq. intros [= <-]. reflexivity.
      * rewrite lookup_insert_ne by exact Hne. apply Hs.
  - unfold cart_clear, cart_of. destruct (carts s !! u_id caller) as [items|] eqn:Hc; simpl.
    + rewrite lookup_insert_eq. reflexivity.
    + rewrite Hc. reflexivity.
  - intros Hc. unfold cart_clear. rewrite Hc. reflexivity.
Qed.

Lemma cart_routes_frame_witness :
  fst (cart_clear Example.alice (Example.shop 3)) = Example.shop 3.
Proof.
  apply (proj2 (proj2 (proj2 (proj2 (proj2 (proj2
           (cart_routes_frame Example.alice (Example.shop 3)))))))).
  reflexivity.
Defined.

Lemma stockOf_found ps pid size colorName product variant :
  ps !! pid = Some product ->
  find_variant size colorName product = Some variant ->
  stockOf ps pid size colorName = Some (v_stock variant).
Proof. intros Hp Hv. unfold stockOf. rewrite Hp, Hv. reflexivity. Qed.

Lemma stockOf_Some_found ps pid size colorName st :
  stockOf ps pid size colorName = Some st ->
  exists product variant,
    ps !! pid = Some product /\ find_variant size colorName product = Some variant
    /\ v_stock variant = st.
Proof.
  unfold stockOf. destruct (ps !! pid) as [product|]; [|discriminate].
  destruct (find_variant size colorName product) as [variant|] eqn:Hv; [|discriminate].
  simpl. intros [= <-]. exists product, variant. auto.
Qed.

(** X12: /cart/update.  A 200 means that the identifiers were there, the
    variant exists, the new quantity is between [1] and its stock, and
    the cart has a line of the variant key; the first such line then
    has the new quantity and every other line is as before.
    Conversely these conditions give the 200 on a cart whose lines are
    valid.  Any other answer leaves the state as it was. *)
Theorem cart_update_outcome caller b s :
  (status (response (snd (cart_update caller b s))) = 200 ->
   exists st items i existing,
     stockOf (products s) (ub_product b) (ub_size b) (ub_colorName b) = Some st
     /\ 1 <= ub_newQuantity b <= st
     /\ carts s !! u_id caller = Some items
     /\ findIndex (same_line (ub_product b) (ub_size b) (ub_colorName b)) items
        = Some (i, existing)
     /\ fst (cart_update caller b s)
        = save_cart (u_id caller) (alter (with_quantity (ub_newQuantity b)) i items) s)
  /\ (forall st items i existing,
        missing (ub_product b) = false -> missing (ub_size b) = false ->
        missing (ub_colorName b) = false ->
        stockOf (products s) (ub_product b) (ub_size b) (ub_colorName b) = Some st ->
        1 <= ub_newQuantity b <= st ->
        carts s !! u_id caller = Some items ->
        cart_valid items = true ->
        findIndex (same_line (ub_product b) (ub_size b) (ub_colorName b)) items
        = Some (i, existing) ->
        let items' := alter (with_quantity (ub_newQuantity b)) i items in
        cart_update caller b s = (save_cart (u_id caller) items' s, send 200 (CartItems items'))
        /\ items' !! i = Some (with_quantity (ub_newQuantity b) existing)
        /\ (forall j, j <> i -> items' !! j = items !! j))
  /\ (status (response (snd (cart_update caller b s))) <> 200 ->
      fst (cart_update caller b s) = s).
Proof.
  split; [|split].
  - unfold cart_update.
    destruct (_ || _); [simpl; discriminate|].
    destruct (Z.ltb_spec (ub_newQuantity b) 1); [simpl; discriminate|].
    destruct (products s !! ub_product b) as [product|] eqn:Hp; [|simpl; discriminate].
    destruct (find_variant _ _ product) as [variant|] eqn:Hv; [|simpl; discriminate].
    destruct (ub_newQuantity b >? v_stock variant) eqn:Hgt; [simpl; discriminate|].
    destruct (carts s !! u_id caller) as [items|] eqn:Hc; [|simpl; discriminate].
    destruct (findIndex _ items) as [[i existing]|] eqn:Hf; [|simpl; discriminate].
    unfold save_and_send. destruct (cart_valid _); [|simpl; discriminate].
    intros _. exists (v_stock variant), items, i, existing.
    rewrite (stockOf_found _ _ _ _ _ _ Hp Hv).
    rewrite Z.gtb_ltb in Hgt. apply Z.ltb_ge in Hgt. repeat split; auto; lia.
  - intros st items i existing H1 H2 H3 Hst [Hq1 Hq2] Hc Hvalid Hf items'.
    destruct (stockOf_Some_found _ _ _ _ _ Hst) as (product & variant & Hp & Hv & <-).
    unfold cart_update. rewrite H1, H2, H3. simpl.
    destruct (Z.ltb_spec (ub_newQuantity b) 1); [lia|].
    rewrite Hp, Hv, gtb_false, Hc, Hf by exact Hq2.
    unfold save_and_send. fold items'. subst items'.
    rewrite cart_valid_alter by assumption.
    split; [reflexivity|].
    destruct (findIndex_Some _ _ _ _ Hf) as (Hi & _ & _).
    split; [rewrite list_lookup_alter_eq, Hi; reflexivity|].
    intros j Hj. apply list_lookup_alter_ne. congruence.
  - unfold cart_update.
    destruct (_ || _); [reflexivity|].
    destruct (_ <? _); [reflexivity|].
    destruct (products s !! ub_product b) as [product|]; [|reflexivity].
    destruct (find_variant _ _ product) as [variant|]; [|reflexivity].
    destruct (_ >? _); [reflexivity|].
    destruct (carts s !! u_id caller) as [items|]; [|reflexivity].
    destruct (findIndex _ items) as [[i existing]|]; [|reflexivity].
    unfold save_and_send. destruct (cart_valid _); simpl; [|reflexivity].
    intros H. contradiction.
Qed.

Lemma cart_update_outcome_witness :
  let s := fst (cart_add Example.alice (Example.guest 2) (Example.shop 5)) in
  cart_of "u-alice" (fst (cart_update Example.alice (mkUpdateBody Example.P "M" "Black" 4) s))
  = [line_of (Example.guest 2) 4]
  /\ fst (cart_update Example.alice (mkUpdateBody Example.P "M" "Black" 6) s) = s
  /\ exists st,
       stockOf (products s) Example.P "M" "Black" = Some st /\ 1 <= 4 <= st.
Proof.
  intros s. split; [|split].
  - destruct (proj1 (proj2 (cart_update_outcome Example.alice
                              (mkUpdateBody Example.P "M" "Black" 4) s))
                5 [line_of (Example.guest 2) 2] 0%nat (line_of (Example.guest 2) 2))
      as [-> _]; try reflexivity.
    split; vm_compute; discriminate.
  - apply (proj2 (proj2 (cart_update_outcome Example.alice
                           (mkUpdateBody Example.P "M" "Black" 6) s))).
    vm_compute. discriminate.
  - destruct (proj1 (cart_update_outcome Example.alice
                       (mkUpdateBody Example.P "M" "Black" 4) s) eq_refl)
      as (st & items & i & existing & Hst & Hq & _).
    exists st. split; [exact Hst | exact Hq].
Defined.

Lemma filter_other_length product size colorName items :
  (length (List.filter (other_line product size colorName) items)
   + lines_of product size colorName items = length items)%nat.
Proof.
  unfold lines_of, other_line. induction items as [|a l IH]; simpl; [reflexivity|].
  destruct (same_line product size colorName a); simpl; lia.
Qed.

Lemma lines_of_filter_other product size colorName items :
  lines_of product size colorName (List.filter (other_line product size colorName) items) = 0%nat.
Proof.
  unfold lines_of, other_line. induction items as [|a l IH]; simpl; [reflexivity|].
  destruct (same_line product size colorName a) eqn:Ha; simpl; [exact IH|].
  rewrite Ha. exact IH.
Qed.

Lemma cart_valid_filter f items :
  cart_valid items = true -> cart_valid (List.filter f items) = true.
Proof.
  unfold cart_valid. rewrite !forallb_forall. intros H x Hx.
  apply filter_In in Hx as [Hx _]. apply H, Hx.
Qed.

(** X13: /cart/remove.  A 200 means the cart had at least one line of
    the variant key; every line of the key is then gone, duplicates
    included, and the other lines are kept in their order.  On a cart
    that has no line of the key the answer is the 404 "Item not found
    in cart." and nothing changes; any answer but 200 leaves the state
    as it was. *)
Theorem cart_remove_outcome caller product size colorName s :
  (status (response (snd (cart_remove caller product size colorName s))) = 200 ->
   exists items,
     carts s !! u_id caller = Some items
     /\ (0 < lines_of product size colorName items)%nat
     /\ carts (fst (cart_remove caller product size colorName s)) !! u_id caller
        = Some (List.filter (other_line product size colorName) items)
     /\ lines_of product size colorName
          (List.filter (other_line product size colorName) items) = 0%nat)
  /\ (forall items,
        missing product = false -> missing size = false -> missing colorName = false ->
        carts s !! u_id caller = Some items ->
        cart_valid items = true ->
        (0 < lines_of product size colorName items)%nat ->
        cart_remove caller product size colorName s
        = (save_cart (u_id caller) (List.filter (other_line product size colorName) items) s,
           send 200 (CartItems (List.filter (other_line product size colorName) items))))
  /\ (forall items,
        missing product = false -> missing size = false -> missing colorName = false ->
        carts s !! u_id caller = Some items ->
        lines_of product size colorName items = 0%nat ->
        cart_remove caller product size colorName s
        = (s, send 404 (Message "Item not found in cart.")))
  /\ (status (response (snd (cart_remove caller product size colorName s))) <> 200 ->
      fst (cart_remove caller product size colorName s) = s).
Proof.
  pose proof (filter_other_length product size colorName) as Hlen.
  split; [|split; [|split]].
  - unfold cart_remove.
    destruct (_ || _); [simpl; discriminate|].
    destruct (carts s !! u_id caller) as [items|] eqn:Hc; [|simpl; discriminate].
    fold (other_line product size colorName).
    destruct (Nat.eqb_spec (length (List.filter (other_line product size colorName) items))
                           (length items)) as [He|Hne]; [simpl; discriminate|].
    unfold save_and_send. destruct (cart_valid _); [|simpl; discriminate].
    intros _. exists items. simpl. rewrite lookup_insert_eq.
    specialize (Hlen items).
    repeat split; [lia | apply lines_of_filter_other].
  - intros items H1 H2 H3 Hc Hvalid Hpos. unfold cart_remove.
    rewrite H1, H2, H3, Hc. simpl. fold (other_line product size colorName).
    specialize (Hlen items).
    destruct (Nat.eqb_spec (length (List.filter (other_line product size colorName) items))
                           (length items)) as [He|Hne]; [lia|].
    unfold save_and_send. rewrite cart_valid_filter by exact Hvalid. reflexivity.
  - intros items H1 H2 H3 Hc H0. unfold cart_remove.
    rewrite H1, H2, H3, Hc. simpl. fold (other_line product size colorName).
    specialize (Hlen items).
    destruct (Nat.eqb_spec (length (List.filter (other_line product size colorName) items))
                           (length items)) as [He|Hne]; [reflexivity|lia].
  - unfold cart_remove.
    destruct (_ || _); [reflexivity|].
    destruct (carts s !! u_id caller) as [items|]; [|reflexivity].
    destruct (_ =? _)%nat; [reflexivity|].
    unfold save_and_send. destruct (cart_valid _); simpl; [|reflexivity].
    intros H. contradiction.
Qed.

Lemma cart_remove_outcome_witness :
  let s := fst (cart_add Example.alice (Example.guest 2) (Example.shop 5)) in
  cart_remove Example.alice Example.P "M" "Black" s
  = (save_cart "u-alice" [] s, send 200 (CartItems []))
  /\ cart_remove Example.alice Example.P "L" "Black" s
     = (s, send 404 (Message "Item not found in cart."))
  /\ (exists items, carts s !! "u-alice" = Some items
                    /\ (0 < lines_of Example.P "M" "Black" items)%nat)
  /\ fst (cart_remove Example.bob Example.P "M" "Black" s) = s.
Proof.
  intros s.
  destruct (cart_remove_outcome Example.alice Example.P "M" "Black" s) as (Hinv & Hok & _).
  destruct (cart_remove_outcome Example.alice Example.P "L" "Black" s) as (_ & _ & Hnone & _).
  destruct (cart_remove_outcome Example.bob Example.P "M" "Black" s) as (_ & _ & _ & Hbad).
  split; [|split; [|split]].
  - rewrite (Hok [line_of (Example.guest 2) 2]); try reflexivity. vm_compute. lia.
  - apply (Hnone [line_of (Example.guest 2) 2]); reflexivity.
  - destruct (Hinv eq_refl) as (items & Hc & Hpos & _). exists items. auto.
  - apply Hbad. vm_compute. discriminate.
Defined.

Lemma filter_other_absent product size colorName items :
  findIndex (same_line product size colorName) items = None ->
  List.filter (other_line product size colorName) items = items.
Proof.
  intros H. pose proof (findIndex_None _ _ H) as Hall. clear H.
  induction items as [|a l IH]; simpl; [reflexivity|].
  unfold other_line at 1. rewrite (Hall a) by (left; reflexivity). simpl.
  f_equal. apply IH. intros x Hx. apply Hall. right. exact Hx.
Qed.

(** X14: adding a variant the cart does not hold and removing it again
    gives the cart back, line for line. *)
Theorem cart_add_then_remove caller b s product variant :
  complete b = true ->
  products s !! g_productId b = Some product ->
  find_variant (g_size b) (g_colorName b) product = Some variant ->
  cart_valid (cart_of (u_id caller) s) = true ->
  findIndex (same_line (g_productId b) (g_size b) (g_colorName b)) (cart_of (u_id caller) s)
  = None ->
  1 <= g_quantity b <= v_stock variant ->
  let s1 := fst (cart_add caller b s) in
  let r2 := cart_remove caller (g_productId b) (g_size b) (g_colorName b) s1 in
  status (response (snd r2)) = 200
  /\ cart_of (u_id caller) (fst r2) = cart_of (u_id caller) s
  /\ cart_frame caller s (fst r2).
Proof.
  intros Hc Hp Hv Hvalid Hfind [Hq1 Hq2] s1 r2.
  set (items := cart_of (u_id caller) s) in *.
  assert (H1 : s1 = save_cart (u_id caller) (items ++ [line_of b (g_quantity b)]) s).
  { subst s1. rewrite (cart_add_found _ _ _ _ _ Hc Hp Hv). unfold merged_quantity.
    fold items. rewrite Hfind. simpl. rewrite gtb_false by exact Hq2.
    unfold save_and_send. rewrite cart_valid_push by assumption. reflexivity. }
  assert (Hids : missing (g_productId b) = false /\ missing (g_size b) = false
                 /\ missing (g_colorName b) = false).
  { unfold complete in Hc. apply negb_true_iff in Hc. rewrite !orb_false_iff in Hc. tauto. }
  destruct Hids as (Hi1 & Hi2 & Hi3).
  assert (Hline : same_line (g_productId b) (g_size b) (g_colorName b)
                    (line_of b (g_quantity b)) = true)
    by (unfold same_line, line_of; simpl; rewrite !String.eqb_refl; reflexivity).
  assert (Hfilter : List.filter (other_line (g_productId b) (g_size b) (g_colorName b))
                      (items ++ [line_of b (g_quantity b)]) = items).
  { rewrite List.filter_app, filter_other_absent by exact Hfind. simpl.
    unfold other_line. rewrite Hline. simpl. apply app_nil_r. }
  clearbody s1. subst s1.
  assert (H2 : r2 = (save_cart (u_id caller) items
                       (save_cart (u_id caller) (items ++ [line_of b (g_quantity b)]) s),
                     send 200 (CartItems items))).
  { subst r2. unfold cart_remove. rewrite Hi1, Hi2, Hi3. simpl.
    rewrite lookup_insert_eq.
    fold (other_line (g_productId b) (g_size b) (g_colorName b)). rewrite Hfilter.
    rewrite length_app. simpl.
    destruct (Nat.eqb_spec (length items) (length items + 1)); [lia|].
    unfold save_and_send. rewrite Hvalid. reflexivity. }
  rewrite H2. simpl. split; [reflexivity|]. split.
  - unfold cart_of. simpl. rewrite lookup_insert_eq. reflexivity.
  - unfold cart_frame. simpl. split; [reflexivity|]. split; [reflexivity|]. split.
    + intros user Hne. rewrite !lookup_insert_ne by congruence. reflexivity.
    + intros Hs user items'. simpl. destruct (decide (u_id caller = user)) as [<-|Hne].
      * rewrite lookup_insert_eq. intros [= <-]. exact Hvalid.
      * rewrite !lookup_insert_ne by exact Hne. apply Hs.
Qed.

Lemma cart_add_then_remove_witness :
  cart_of "u-alice"
    (fst (cart_remove Example.alice Example.P "M" "Black"
            (fst (cart_add Example.alice (Example.guest 2) (Example.shop 5)))))
  = cart_of "u-alice" (Example.shop 5).
Proof.
  apply (cart_add_then_remove Example.alice (Example.guest 2) (Example.shop 5)
           (Example.shirt 5) (mkVariant "M" "Black" "#000000" 5));
    try reflexivity.
  split; vm_compute; discriminate.
Defined.

(** ** More on merging a guest cart *)

Lemma merge_step_absent ps persisted items g st :
  identified g = true ->
  stockOf ps (g_productId g) (g_size g) (g_colorName g) = Some st ->
  st <> 0 ->
  plain_guest g -> Forall plain_line persisted ->
  findIndex (same_line (g_productId g) (g_size g) (g_colorName g)) persisted = None ->
  merge_step ps (list_to_set (map lineKey persisted)) items g
  = Some (items ++ [line_of g (Z.min (g_quantity g) st)]).
Proof.
  intros Hid Hst Hne [Hgp Hgs] Hplain Hnone.
  rewrite (merge_step_live _ _ _ _ _ Hid Hst Hne). simpl.
  rewrite bool_decide_eq_false_2; [reflexivity|].
  intros Hin. apply key_in_existing in Hin as (line & Hl & Hkey).
  pose proof (findIndex_None _ _ Hnone line Hl) as Hout.
  rewrite Forall_forall in Hplain. specialize (Hplain line (proj2 (list_elem_of_In _ _) Hl)).
  apply String.eqb_eq in Hkey. rewrite key_eqb_same_line in Hkey by assumption.
  congruence.
Qed.

(** X15: the set of existing keys is built once, before the loop.  A
    guest cart that holds twice an item the persisted cart does not
    hold therefore leaves two lines of the same variant key, each of the
    quantity of the item clamped to the stock: the quantities are not
    summed, and together they may exceed the stock. *)
Theorem cart_merge_repeats_new_item ps items g st :
  identified g = true ->
  stockOf ps (g_productId g) (g_size g) (g_colorName g) = Some st ->
  st <> 0 ->
  plain_guest g -> Forall plain_line items ->
  findIndex (same_line (g_productId g) (g_size g) (g_colorName g)) items = None ->
  merge_items ps items [g; g]
  = Some (items ++ [line_of g (Z.min (g_quantity g) st); line_of g (Z.min (g_quantity g) st)])
  /\ lines_of (g_productId g) (g_size g) (g_colorName g)
       (items ++ [line_of g (Z.min (g_quantity g) st); line_of g (Z.min (g_quantity g) st)])
     = 2%nat.
Proof.
  intros Hid Hst Hne Hg Hplain Hnone. split.
  - unfold merge_items. simpl.
    rewrite (merge_step_absent ps items _ g st) by assumption. simpl.
    rewrite (merge_step_absent ps items _ g st) by assumption.
    rewrite <- app_assoc. reflexivity.
  - rewrite lines_of_app, lines_of_absent by exact Hnone.
    unfold lines_of, same_line, line_of. simpl. rewrite !String.eqb_refl. reflexivity.
Qed.

Lemma cart_merge_repeats_new_item_witness :
  merge_items (products (Example.shop 5)) [] [Example.guest 4; Example.guest 4]
  = Some [line_of (Example.guest 4) 4; line_of (Example.guest 4) 4].
Proof.
  apply (cart_merge_repeats_new_item (products (Example.shop 5)) [] (Example.guest 4) 5);
    try reflexivity.
  - discriminate.
  - split; reflexivity.
  - constructor.
Defined.

Lemma line_identity_alter q i items :
  map line_identity (alter (with_quantity q) i items) = map line_identity items.
Proof.
  revert i. induction items as [|a l IH]; intros [|i]; simpl; try reflexivity.
  f_equal. apply IH.
Qed.

Lemma merge_step_keeps ps existingItems items g items' :
  merge_step ps existingItems items g = Some items' ->
  exists added,
    map line_identity items' = map line_identity items ++ added
    /\ (length added <= 1)%nat.
Proof.
  assert (Hsame : exists added : list CartItem,
             map line_identity items = map line_identity items ++ added
             /\ (length added <= 1)%nat)
    by (exists []; split; [symmetry; apply app_nil_r | simpl; lia]).
  unfold merge_step.
  destruct (_ || _); [intros [= <-]; exact Hsame|].
  destruct (findById ps (g_productId g)) as [| |[oid product]];
    [discriminate | intros [= <-]; exact Hsame |].
  destruct (find_variant _ _ product) as [variant|]; [|intros [= <-]; exact Hsame].
  destruct (v_stock variant =? 0); [intros [= <-]; exact Hsame|].
  destruct (bool_decide _).
  - destruct (findIndex _ items) as [[i existing]|]; intros [= <-]; [|exact Hsame].
    rewrite line_identity_alter. exact Hsame.
  - intros [= <-]. eexists. rewrite map_app. split; [reflexivity | simpl; lia].
Qed.

Lemma merge_loop_keeps ps existingItems guestCart items items' :
  fold_left (merge_turn ps existingItems) guestCart (Some items) = Some items' ->
  exists added,
    map line_identity items' = map line_identity items ++ added
    /\ (length added <= length guestCart)%nat.
Proof.
  revert items. induction guestCart as [|g gs IH]; intros items; simpl.
  - intros [= <-]. exists []. split; [symmetry; apply app_nil_r | simpl; lia].
  - destruct (merge_step ps existingItems items g) as [items1|] eqn:H1;
      [|rewrite merge_turn_threw; discriminate].
    intros H. destruct (IH _ H) as (added & Ha & Hl).
    destruct (merge_step_keeps _ _ _ _ _ H1) as (one & Ho & Hl1).
    exists (one ++ added). rewrite Ha, Ho, <- app_assoc, length_app.
    split; [reflexivity | lia].
Qed.

(** X16: /cart/merge removes no line, reorders none and rewrites of a
    line nothing but its quantity.  When the loop ends without an
    exception, the lines it leaves are, but for the quantities, the
    lines before, followed by at most one new line per guest item; and
    whatever the request and the answer, the cart the route leaves is,
    but for the quantities, the cart before followed by at most one new
    line per guest item. *)
Theorem cart_merge_keeps_lines :
  (forall ps items guestCart items',
      merge_items ps items guestCart = Some items' ->
      exists added,
        map line_identity items' = map line_identity items ++ added
        /\ (length added <= length guestCart)%nat)
  /\
  (forall caller guestCart s,
      exists added,
        map line_identity (cart_of (u_id caller) (fst (cart_merge caller guestCart s)))
        = map line_identity (cart_of (u_id caller) s) ++ added
        /\ (length added <= length (default [] guestCart))%nat).
Proof.
  split.
  - intros ps items guestCart items'. apply merge_loop_keeps.
  - intros caller guestCart s.
    assert (Hsame : exists added : list CartItem,
               map line_identity (cart_of (u_id caller) s)
               = map line_identity (cart_of (u_id caller) s) ++ added
               /\ (length added <= length (default [] guestCart))%nat)
      by (exists []; split; [symmetry; apply app_nil_r | simpl; lia]).
    destruct guestCart as [guestCart|]; [|exact Hsame].
    unfold cart_merge.
    destruct (merge_items _ _ guestCart) as [items'|] eqn:Hm; [|exact Hsame].
    unfold save_and_send. destruct (cart_valid items'); [|exact Hsame].
    simpl. unfold cart_of at 1. simpl. rewrite lookup_insert_eq. simpl.
    exact (merge_loop_keeps _ _ _ _ _ Hm).
Qed.

Lemma cart_merge_keeps_lines_witness :
  let s := fst (cart_add Example.alice (Example.guest 2) (Example.shop 5)) in
  exists added,
    map line_identity [line_of (Example.guest 2) 5;
                       mkCartItem Example.P "Shirt" (499 # 1) "shirt.png" "L" "Black" 1]
    = map line_identity (cart_of "u-alice" s) ++ added
    /\ (length added <= 2)%nat.
Proof.
  intros s.
  apply (proj1 cart_merge_keeps_lines (products s) (cart_of "u-alice" s)
           [Example.guest 9;
            mkGuestItem Example.P "Shirt" (499 # 1) "shirt.png" "L" "Black" 1]).
  reflexivity.
Defined.

(** ** What the validators read *)

Lemma find_in_complete ids ps id p :
  In id ids -> ps !! id = Some p -> In (id, p) (find_in ids ps).
Proof.
  unfold find_in. intros Hin Hp. induction ids as [|a ids IH]; simpl; [contradiction|].
  destruct Hin as [-> | Hin].
  - rewrite Hp. simpl. left. reflexivity.
  - destruct (ps !! a); simpl; [right|]; apply IH, Hin.
Qed.

Lemma stockMap_add_fold_mono id vs (m : gmap string Z) k :
  is_Some (m !! k) -> is_Some (fold_left (stockMap_add id) vs m !! k).
Proof.
  revert m. induction vs as [|v vs IH]; intros m H; simpl; [exact H|].
  apply IH. unfold stockMap_add.
  destruct (decide (itemKey id (v_size v) (v_colorName v) = k)) as [<-|Hne].
  - rewrite lookup_insert_eq. eauto.
  - rewrite lookup_insert_ne by exact Hne. exact H.
Qed.

Lemma stockMap_add_fold_In id vs (m : gmap string Z) v :
  In v vs -> is_Some (fold_left (stockMap_add id) vs m !! itemKey id (v_size v) (v_colorName v)).
Proof.
  revert m. induction vs as [|w vs IH]; intros m; simpl; [contradiction|].
  intros [-> | H]; [|apply IH, H].
  apply stockMap_add_fold_mono. unfold stockMap_add. rewrite lookup_insert_eq. eauto.
Qed.

Lemma stockMap_of_has found id p v :
  In (id, p) found -> In v (p_variants p) ->
  is_Some (stockMap_of found !! itemKey id (v_size v) (v_colorName v)).
Proof.
  unfold stockMap_of. generalize (∅ : gmap string Z) as m. intros m Hin Hv. revert m.
  induction found as [|[id' p'] found IH]; intros m; simpl; [contradiction|].
  destruct Hin as [[= -> ->] | Hin]; [|apply IH, Hin].
  assert (Hmono : forall (m0 : gmap string Z) k,
             is_Some (m0 !! k) ->
             is_Some (fold_left (fun m '(id, p) => fold_left (stockMap_add id) (p_variants p) m)
                                found m0 !! k)).
  { clear. induction found as [|[i q] found IH]; intros m0 k H; simpl; [exact H|].
    apply IH, stockMap_add_fold_mono, H. }
  apply Hmono, stockMap_add_fold_In, Hv.
Qed.

Lemma NoDup_map_eq {A B : Type} (f : A -> B) (l : list A) x y :
  NoDup (map f l) -> In x l -> In y l -> f x = f y -> x = y.
Proof.
  induction l as [|a l IH]; simpl; [contradiction|].
  intros Hnd Hx Hy Hf. apply NoDup_cons in Hnd as [Hnot Hnd].
  rewrite list_elem_of_In in Hnot.
  destruct Hx as [-> | Hx], Hy as [-> | Hy]; auto.
  - exfalso. apply Hnot. rewrite Hf. apply in_map, Hy.
  - exfalso. apply Hnot. rewrite <- Hf. apply in_map, Hx.
Qed.

(** On a ledger whose keys are plain and unique, the [stockMap] holds
    for a variant key the stock of its variant. *)
Lemma stockMap_reads_ledger ps ids pid size colorName st :
  plain_keys ps -> unique_variants ps ->
  no_dash pid = true -> no_dash size = true ->
  In pid ids ->
  stockOf ps pid size colorName = Some st ->
  stockMap_of (find_in ids ps) !! itemKey pid size colorName = Some st.
Proof.
  intros Hk Hu Hpid Hsz Hin Hst.
  destruct (stockOf_Some_found _ _ _ _ _ Hst) as (product & variant & Hp & Hv & <-).
  apply find_some in Hv as [Hvin Hvm].
  unfold variant_matches in Hvm. apply andb_true_iff in Hvm as [Hs Hc].
  apply String.eqb_eq in Hs, Hc.
  pose proof (stockMap_of_has _ _ _ _ (find_in_complete _ _ _ _ Hin Hp) Hvin) as [n Hn].
  rewrite Hs, Hc in Hn. rewrite Hn. f_equal.
  apply stockMap_of_Some in Hn as (id' & p' & v' & Hin' & Hv' & Hkey & ->).
  apply find_in_In in Hin'.
  destruct (plain_keys_In _ _ _ _ Hk Hin' Hv') as [Hid' Hvs'].
  apply itemKey_inj in Hkey as (-> & Hs' & Hc'); [|assumption..].
  assert (p' = product) as -> by congruence.
  f_equal. apply (map_Forall_lookup_1 _ _ _ _ Hu) in Hp.
  apply (NoDup_map_eq (fun v => (v_size v, v_colorName v)) (p_variants product));
    [exact Hp | exact Hv' | exact Hvin | congruence].
Qed.

Lemma is_hex_no_dash c : is_hex c = true -> Ascii.eqb c "-"%char = false.
Proof. destruct c as [[] [] [] [] [] [] [] []]; vm_compute; congruence. Qed.

Lemma all_hex_no_dash id : all_hex id = true -> no_dash id = true.
Proof.
  induction id as [|c id IH]; simpl; [reflexivity|].
  intros H. apply andb_true_iff in H as [Hc Hid].
  rewrite (is_hex_no_dash _ Hc), IH by exact Hid. reflexivity.
Qed.

(** A string that casts to an ObjectId holds no ["-"]. *)
Lemma castObjectId_no_dash id : is_Some (castObjectId id) -> no_dash id = true.
Proof.
  unfold castObjectId. intros [oid H].
  destruct (_ =? _)%nat; [|discriminate]. simpl in H.
  destruct (all_hex id) eqn:Hh; [|discriminate]. apply all_hex_no_dash, Hh.
Qed.

(** The ids the query of /validate-cart looks for include every id of
    the request that is the id of a product. *)
Lemma cast_ids_stored (ps : gmap string Product) ids oids id :
  mapM (cast_id ps) ids = Some oids ->
  In id ids -> is_Some (ps !! id) -> In id oids.
Proof.
  rewrite mapM_Some. intros H Hin [p Hp].
  induction H as [|x y xs ys Hxy _ IH]; [contradiction|].
  destruct Hin as [-> | Hin]; [|right; apply IH, Hin].
  unfold cast_id in Hxy. rewrite Hp in Hxy. injection Hxy as <-. left. reflexivity.
Qed.

(** X17: what the three validators report as [realStock].  GET
    /api/cart always reports the stock the ledger holds for the variant
    of the line, [0] when the product or the variant is gone;
    /cart/validate-guest does so for every item whose identifiers are
    there and whose product id is spelled as the string of an ObjectId
    is; /validate-cart, which reads a map keyed by the joined string
    of the id as the request spells it, the size and the colour name,
    does so when the ids of the request cast to ObjectIds, ids and
    sizes hold no ["-"] and no product lists a variant key twice: it
    reports the stock of the product whose id is spelled as the request
    spells it, and [0] when there is none. *)
Theorem validators_read_the_ledger :
  (forall ps item,
      realStock (snd (cart_get_item ps item))
      = ledger_stock ps (ci_product item) (ci_size item) (ci_colorName item))
  /\
  (forall ps g,
      identified g = true ->
      castObjectId (g_productId g) = Some (g_productId g) ->
      realStock (snd (fst (validate_guest_item ps g)))
      = ledger_stock ps (g_productId g) (g_size g) (g_colorName g))
  /\
  (forall s items,
      plain_keys (products s) -> unique_variants (products s) ->
      Forall (fun p => is_Some (castObjectId (pk_id p)) /\ no_dash (pk_size p) = true) items ->
      exists anns canCheckout,
        validate_cart (Some items) s = send 200 (ValidatedCart anns canCheckout)
        /\ map an_item anns = items
        /\ Forall (fun a => realStock a
                            = ledger_stock (products s) (pk_id (an_item a))
                                (pk_size (an_item a)) (pk_colorName (an_item a))) anns).
Proof.
  split; [|split].
  - intros ps item. unfold cart_get_item, ledger_stock, stockOf.
    destruct (ps !! ci_product item) as [p|]; [|reflexivity].
    destruct (find_variant _ _ p) as [v|]; [|reflexivity]. simpl.
    destruct (Z.eqb_spec (v_stock v) 0) as [->|]; [reflexivity|].
    destruct (v_stock v <? ci_quantity item); reflexivity.
  - intros ps g Hid _. unfold identified in Hid. apply negb_true_iff in Hid.
    unfold validate_guest_item, ledger_stock, stockOf. rewrite Hid.
    destruct (ps !! g_productId g) as [p|]; [|reflexivity].
    destruct (find_variant _ _ p) as [v|]; [|reflexivity]. simpl.
    destruct (Z.eqb_spec (v_stock v) 0) as [->|]; [reflexivity|].
    destruct (v_stock v <? g_quantity g); reflexivity.
  - intros s items Hk Hu Hplain. unfold validate_cart.
    assert (Hcast : Forall (fun p => is_Some (castObjectId (pk_id p))) items)
      by (eapply Forall_impl; [exact Hplain | intros p [H _]; exact H]).
    destruct (find_by_ids_castable (products s) items Hcast) as (oids & Hoids & ->).
    set (m := stockMap_of _).
    exists (map (validate_pick m) items), (fold_left checkout_after (map (validate_pick m) items) true).
    split; [reflexivity|]. split; [rewrite map_map; apply map_id|].
    apply Forall_map. rewrite Forall_forall. intros p Hp. apply list_elem_of_In in Hp.
    rewrite Forall_forall in Hplain.
    destruct (Hplain p (proj2 (list_elem_of_In _ _) Hp)) as [Hc Hsz].
    pose proof (castObjectId_no_dash _ Hc) as Hpid.
    unfold validate_pick, ledger_stock. simpl. subst m.
    destruct (stockOf (products s) (pk_id p) (pk_size p) (pk_colorName p)) as [st|] eqn:Hst.
    + rewrite (stockMap_reads_ledger _ (distinct oids) _ _ _ st); try assumption; [reflexivity|].
      apply distinct_In. apply (cast_ids_stored (products s) (distinct (map pk_id items)));
        [exact Hoids | apply distinct_In, in_map, Hp |].
      destruct (stockOf_Some_found _ _ _ _ _ Hst) as (product & _ & Hprod & _). eauto.
    + rewrite stockMap_missing by assumption. reflexivity.
Qed.

Lemma validators_read_the_ledger_witness :
  realStock (snd (fst (validate_guest_item (products (Example.shop 3)) (Example.guest 9)))) = 3
  /\ exists anns canCheckout,
       validate_cart (Some [Example.pick 9; mkPick Example.gone "M" "Black" 1;
                            mkPick Example.P_upper "M" "Black" 1])
                     (Example.shop 3)
       = send 200 (ValidatedCart anns canCheckout)
       /\ map realStock anns = [3; 0; 0].
Proof.
  destruct validators_read_the_ledger as (_ & Hguest & Hcart).
  split.
  - rewrite Hguest by reflexivity. reflexivity.
  - destruct (Hcart (Example.shop 3)
                [Example.pick 9; mkPick Example.gone "M" "Black" 1;
                 mkPick Example.P_upper "M" "Black" 1])
      as (anns & can & Hr & Hitems & Hall).
    + apply (bool_decide_unpack _). vm_compute. exact I.
    + apply (bool_decide_unpack _). vm_compute. exact I.
    + repeat constructor; vm_compute; eauto.
    + exists anns, can. split; [exact Hr|].
      destruct anns as [|a [|a' [|a'' [|]]]]; try discriminate Hitems.
      injection Hitems as Ha Ha' Ha''.
      apply Forall_cons in Hall as [H1 H2]. apply Forall_cons in H2 as [H2 H3].
      apply Forall_cons in H3 as [H3 _].
      simpl. rewrite H1, H2, H3, Ha, Ha', Ha''. reflexivity.
Defined.

(** ** The summaries of the cart-side validators *)

Lemma validate_guest_item_flag ps g :
  fst (fst (validate_guest_item ps g))
  = hasSufficientStock (snd (fst (validate_guest_item ps g))).
Proof.
  unfold validate_guest_item.
  destruct (_ || _); [reflexivity|].
  destruct (ps !! g_productId g) as [p|]; [|reflexivity].
  destruct (find_variant _ _ p) as [v|]; [|reflexivity].
  destruct (v_stock v =? 0); [reflexivity|].
  destruct (v_stock v <? g_quantity g); reflexivity.
Qed.

Lemma cart_get_item_flag ps item :
  fst (cart_get_item ps item) = hasSufficientStock (snd (cart_get_item ps item))
  /\ an_item (snd (cart_get_item ps item)) = item.
Proof.
  unfold cart_get_item.
  destruct (ps !! ci_product item) as [p|]; [|auto].
  destruct (find_variant _ _ p) as [v|]; [|auto].
  destruct (v_stock v =? 0); [auto|].
  destruct (v_stock v <? ci_quantity item); auto.
Qed.

Lemma cart_get_folds ps items (sub : Q) (c : bool) :
  fold_left (fun (sub : Q) '(ok, a) =>
               if ok : bool
               then (sub + ci_price (an_item a) * inject_Z (ci_quantity (an_item a)))%Q
               else sub)
            (map (cart_get_item ps) items) sub
  = fold_left (fun (sub : Q) a =>
                 if hasSufficientStock a
                 then (sub + ci_price (an_item a) * inject_Z (ci_quantity (an_item a)))%Q
                 else sub)
              (map snd (map (cart_get_item ps) items)) sub
  /\ fold_left (fun (c : bool) '(ok, _) => if ok : bool then c else false)
               (map (cart_get_item ps) items) c
     = c && all_sufficient (map snd (map (cart_get_item ps) items)).
Proof.
  revert sub c. induction items as [|item items IH]; intros sub c; simpl.
  - split; [reflexivity | symmetry; apply andb_true_r].
  - destruct (cart_get_item_flag ps item) as [Hok _].
    destruct (cart_get_item ps item) as [ok a]. simpl in *. subst ok.
    destruct (IH (if hasSufficientStock a
                  then (sub + ci_price (an_item a) * inject_Z (ci_quantity (an_item a)))%Q
                  else sub)
                 (if hasSufficientStock a then c else false)) as [-> ->].
    split; [reflexivity|]. destruct (hasSufficientStock a), c; reflexivity.
Qed.

(** X18: the summaries GET /api/cart and /cart/validate-guest send, for
    every cart, every quantity and every ledger.  [canCheckout] is the
    conjunction of [hasSufficientStock] over the items (so it is [true]
    for an empty list), the items come back in order, and the
    [subtotal] of GET /api/cart adds price times quantity over exactly
    the lines that are sufficient.  A user without a cart gets the
    empty view.  A line of a cart and the guest item spelled like it
    get the same four annotations. *)
Theorem cart_validators_summary :
  (forall s guestCart,
      exists anns,
        response (validate_guest (Some guestCart) s)
        = mkResponse 200 (ValidatedGuest anns (all_sufficient anns))
        /\ map an_item anns = guestCart)
  /\
  (forall caller s items,
      carts s !! u_id caller = Some items ->
      exists anns,
        cart_get caller s = CartChecked anns (sufficient_total anns) (all_sufficient anns)
        /\ map an_item anns = items)
  /\
  (forall caller s, carts s !! u_id caller = None -> cart_get caller s = NoCart)
  /\
  (forall ps item,
      identified (guest_of item) = true ->
      let a := snd (cart_get_item ps item) in
      let a' := snd (fst (validate_guest_item ps (guest_of item))) in
      realStock a = realStock a' /\ hasSufficientStock a = hasSufficientStock a'
      /\ isLowStock a = isLowStock a' /\ isOutOfStock a = isOutOfStock a').
Proof.
  split; [|split; [|split]].
  - intros s guestCart. unfold validate_guest. simpl.
    set (ps := products s). set (results := map (validate_guest_item ps) guestCart).
    exists (map (fun '(_, a, _) => a) results). split.
    + do 2 f_equal. rewrite guest_flag_fold. simpl. unfold all_sufficient.
      subst results. induction guestCart as [|g gs IH]; simpl; [reflexivity|].
      rewrite IH. f_equal. pose proof (validate_guest_item_flag ps g) as Hf.
      destruct (validate_guest_item ps g) as [[ok a] l]. exact Hf.
    + subst results. rewrite map_map. induction guestCart as [|g gs IH]; simpl; [reflexivity|].
      rewrite IH. f_equal. pose proof (validate_guest_item_item ps g) as Hi.
      destruct (validate_guest_item ps g) as [[ok a] l]. exact Hi.
  - intros caller s items Hc. unfold cart_get. rewrite Hc.
    exists (map snd (map (cart_get_item (products s)) items)).
    destruct (cart_get_folds (products s) items 0%Q true) as [-> ->].
    split; [reflexivity|]. clear Hc.
    rewrite map_map. induction items as [|item items IH]; simpl; [reflexivity|].
    rewrite IH. f_equal. apply cart_get_item_flag.
  - intros caller s Hc. unfold cart_get. rewrite Hc. reflexivity.
  - intros ps item Hid. unfold identified in Hid. apply negb_true_iff in Hid.
    unfold cart_get_item, validate_guest_item. rewrite Hid. simpl.
    destruct (ps !! ci_product item) as [p|]; [|auto].
    destruct (find_variant _ _ p) as [v|]; [|auto].
    destruct (v_stock v =? 0); [auto|].
    destruct (v_stock v <? ci_quantity item); auto.
Qed.

Lemma cart_validators_summary_witness :
  let s := fst (cart_add Example.alice (Example.guest 2) (Example.shop 5)) in
  (exists anns,
      cart_get Example.alice s = CartChecked anns (sufficient_total anns) (all_sufficient anns))
  /\ cart_get Example.bob s = NoCart
  /\ realStock (snd (cart_get_item (products s) (line_of (Example.guest 2) 2)))
     = realStock (snd (fst (validate_guest_item (products s) (Example.guest 2)))).
Proof.
  intros s.
  destruct cart_validators_summary as (_ & Hcart & Hnone & Hsame).
  split; [|split].
  - destruct (Hcart Example.alice s [line_of (Example.guest 2) 2] eq_refl) as (anns & Hr & _).
    exists anns. exact Hr.
  - apply Hnone. reflexivity.
  - exact (proj1 (Hsame (products s) (line_of (Example.guest 2) 2) eq_refl)).
Defined.
